(** * iodict: a dictionary kept in a directory

    A verification model of [iodict/__init__.py].  Every record of the
    store is one file of a flat directory; the pickled value is the file
    content, the original key and the birth time live in the extended
    attributes [user.key] and [user.birthtime] when the file system has
    them.  The Python functions are embedded as functions over an explicit
    file-system state inside a state-and-exception monad: a raised
    exception keeps the side effects done before it, as in Python. *)

From Stdlib Require Import ZArith List String Ascii Bool Lia Permutation Sorted.
Import ListNotations.
Local Open Scope string_scope.
Local Open Scope Z_scope.

(** ** Python values *)

(** The values the model hands to the store, as keys and as payloads:
    [None], booleans, integers and text.  Text is kept as the sequence of
    its UTF-8 bytes, so that [str.encode] and [bytes.decode] do not change
    the representation. *)
Inductive pyobj : Type :=
  | PNone
  | PBool (b : bool)
  | PInt (z : Z)
  | PStr (s : string).

(** Truth value of an object, as tested by [if key:] and [if default:]. *)
Definition truthy (o : pyobj) : bool :=
  match o with
  | PNone => false
  | PBool b => b
  | PInt z => negb (z =? 0)
  | PStr s => negb (String.eqb s "")
  end.

Definition is_str (o : pyobj) : bool :=
  match o with PStr _ => true | _ => false end.

Definition bytes : Type := string.

Definition digit_char (d : Z) : ascii :=
  ascii_of_nat (Z.to_nat (48 + d)).

(** Decimal digits of a non-negative integer, most significant first.
    The fuel bounds the number of digits. *)
Fixpoint decimal_digits (fuel : nat) (z : Z) (acc : string) : string :=
  match fuel with
  | O => acc
  | S fuel' =>
      let acc' := String (digit_char (z mod 10)) acc in
      if z / 10 =? 0 then acc' else decimal_digits fuel' (z / 10) acc'
  end.

Definition int_repr (z : Z) : string :=
  if z <? 0
  then String "-" (decimal_digits (S (Z.to_nat (Z.log2 (- z)))) (- z) "")
  else decimal_digits (S (Z.to_nat (Z.log2 z))) z "".

(** [str(obj)], the encoder of a store on a file system without extended
    attributes. *)
Definition str (o : pyobj) : string :=
  match o with
  | PNone => "None"
  | PBool true => "True"
  | PBool false => "False"
  | PInt z => int_repr z
  | PStr s => s
  end.

(** ** hashlib.sha3_224

    SHA3-224 of FIPS 202: Keccak-f[1600] on 25 lanes of 64 bits, rate 144
    bytes, domain suffix [0x06], 28 bytes of output. *)
Module Keccak.

Definition mask64 : Z := 0xFFFFFFFFFFFFFFFF.

Definition rotl64 (x n : Z) : Z :=
Z.lor (Z.land (Z.shiftl x n) mask64) (Z.shiftr x (64 - n)).

Definition round_constants : list Z :=
[ 0x0000000000000001; 0x0000000000008082; 0x800000000000808A;
  0x8000000080008000; 0x000000000000808B; 0x0000000080000001;
  0x8000000080008081; 0x8000000000008009; 0x000000000000008A;
  0x0000000000000088; 0x0000000080008009; 0x000000008000000A;
  0x000000008000808B; 0x800000000000008B; 0x8000000000008089;
  0x8000000000008003; 0x8000000000008002; 0x8000000000000080;
  0x000000000000800A; 0x800000008000000A; 0x8000000080008081;
  0x8000000000008080; 0x0000000080000001; 0x8000000080008008 ].

(** Rotation offsets, lane [x + 5 * y] at position [x + 5 * y]. *)
Definition rotation_offsets : list Z :=
[ 0; 1; 62; 28; 27;
  36; 44; 6; 55; 20;
  3; 10; 43; 25; 39;
  41; 45; 15; 21; 8;
  18; 2; 61; 56; 14 ].

Definition lane (A : list Z) (x y : nat) : Z :=
nth ((x mod 5) + 5 * (y mod 5))%nat A 0.

Definition rho (x y : nat) : Z :=
nth ((x mod 5) + 5 * (y mod 5))%nat rotation_offsets 0.

Definition coords : list (nat * nat) :=
flat_map (fun y => map (fun x => (x, y)) (seq 0 5)) (seq 0 5).

Definition round (A : list Z) (rc : Z) : list Z :=
let C := map (fun x => fold_left Z.lxor (map (lane A x) (seq 0 5)) 0) (seq 0 5) in
let c x := nth (x mod 5)%nat C 0 in
let D := map (fun x => Z.lxor (c (x + 4)%nat) (rotl64 (c (x + 1)%nat) 1)) (seq 0 5) in
let theta := map (fun '(x, y) => Z.lxor (lane A x y) (nth x D 0)) coords in
(* rho and pi: B[y][2x+3y] = rot (A[x][y]), read backwards *)
let B := map (fun '(X, Y) =>
                let x := ((X + 3 * Y) mod 5)%nat in
                rotl64 (lane theta x X) (rho x X)) coords in
let chi := map (fun '(x, y) =>
                  Z.lxor (lane B x y)
                    (Z.land (Z.lxor (lane B (x + 1) y) mask64)
                            (lane B (x + 2) y))) coords in
match chi with
| a :: rest => Z.lxor a rc :: rest
| [] => []
end.

Definition keccak_f (A : list Z) : list Z :=
fold_left round round_constants A.

Definition rate : nat := 144.

Definition byte_of (c : ascii) : Z := Z.of_N (N_of_ascii c).

(** Little-endian value of at most eight bytes. *)
Fixpoint le_word (bs : list Z) : Z :=
match bs with
| [] => 0
| b :: rest => Z.lor b (Z.shiftl (le_word rest) 8)
end.

Fixpoint lanes_of (n : nat) (bs : list Z) : list Z :=
match n with
| O => []
| S n' => le_word (firstn 8 bs) :: lanes_of n' (skipn 8 bs)
end.

Fixpoint xor_lanes (A B : list Z) : list Z :=
match A, B with
| a :: A', b :: B' => Z.lxor a b :: xor_lanes A' B'
| _, [] => A
| [], _ => []
end.

(** The message followed by the suffix [0x06], zero bytes and a final
  [0x80], up to the next multiple of the rate. *)
Definition pad (msg : list Z) : list Z :=
let r := (rate - (List.length msg mod rate))%nat in
if (r =? 1)%nat then (msg ++ [0x86])%list
else (msg ++ [0x06] ++ repeat 0 (r - 2) ++ [0x80])%list.

Fixpoint absorb (blocks : nat) (bs : list Z) (A : list Z) : list Z :=
match blocks with
| O => A
| S n =>
    absorb n (skipn rate bs)
      (keccak_f (xor_lanes A (lanes_of 18 (firstn rate bs))))
end.

Definition lane_bytes (w : Z) : list Z :=
map (fun i => Z.land (Z.shiftr w (8 * Z.of_nat i)) 0xFF) (seq 0 8).

Definition hex_char (d : Z) : ascii :=
if d <? 10 then ascii_of_nat (Z.to_nat (48 + d))
else ascii_of_nat (Z.to_nat (87 + d)).

Definition hex_of_byte (b : Z) (rest : string) : string :=
String (hex_char (Z.shiftr b 4)) (String (hex_char (Z.land b 0xF)) rest).

Definition sha3_224_digest (msg : bytes) : list Z :=
let padded := pad (map byte_of (list_ascii_of_string msg)) in
let A := absorb (List.length padded / rate) padded (repeat 0 25) in
firstn 28 (flat_map lane_bytes A).

Definition sha3_224_hexdigest (msg : bytes) : string :=
fold_right hex_of_byte "" (sha3_224_digest msg).

End Keccak.

(** [_object_sha3_224]: text is hashed through [obj.encode()], any other
    object through [pickle.dumps(obj)] after the [AttributeError]. *)
Section Hashing.

(** [pickle.dumps]; only its being a function matters. *)
Variable pickle_dumps : pyobj -> bytes.

Definition _object_sha3_224 (obj : pyobj) : string :=
  match obj with
  | PStr s => Keccak.sha3_224_hexdigest s
  | _ => Keccak.sha3_224_hexdigest (pickle_dumps obj)
  end.

End Hashing.

(** ** Exceptions and the monad of the operations *)

(** The exceptions the store meets.  [PathOutsideStore] stands for
    whatever the operating system answers when the encoded key is not one
    path component, so that the joined path leaves the flat directory
    (the empty name, [.], [..], a name with a slash): that answer depends
    on the files around the store, and no result below speaks about it. *)
Inductive exn : Type :=
  | KeyError (arg : pyobj)
  | FileNotFoundError (path : string)
  | OSError                      (* ENODATA, ENOTSUP and the like *)
  | AttributeError
  | IndexError
  | StopIteration
  | PathOutsideStore (path : string).

(** [except OSError] also catches [FileNotFoundError]. *)
Definition is_OSError (e : exn) : bool :=
  match e with
  | FileNotFoundError _ | OSError => true
  | _ => false
  end.

Definition is_FileNotFoundError (e : exn) : bool :=
  match e with FileNotFoundError _ => true | _ => false end.

Definition is_KeyError (e : exn) : bool :=
  match e with KeyError _ => true | _ => false end.

Inductive result (A : Type) : Type :=
  | Ok (a : A)
  | Raise (e : exn).
Arguments Ok {A} a.
Arguments Raise {A} e.

(** ** The store directory *)

(** Time stamps.  The code only stores and compares them, so the doubles
    of [time.time()] and of [os.stat] are kept as integer ticks;
    [struct.pack(">d", t)] and [struct.unpack] are inverse to each other
    on them. *)
Definition time : Type := Z.

(** One file of the store directory.  The content is the pickle of
    [payload]; [birthtime_attr] is the double packed in [user.birthtime],
    [key_attr] the bytes of [user.key]. *)
Record inode : Type := mk_inode {
  payload : pyobj;
  birthtime_attr : option time;
  key_attr : option bytes;
  created : time;
  ctime : time
}.

(** The world an operation runs in: the entries of the store directory in
    the order [os.scandir] reports them, the clock, whether the file system
    takes extended attributes, and whether [os.stat] results carry
    [st_birthtime].  Paths are kept relative to the directory of the store:
    [os.path.join(self._db_path, name)] is [name], and [os.path.basename]
    of such a path is [name] again. *)
Record filesystem : Type := mk_fs {
  xattr_supported : bool;
  stat_has_birthtime : bool;
  clock : time;
  entries : list (string * inode)
}.

Definition with_entries (fs : filesystem) (l : list (string * inode)) : filesystem :=
  mk_fs (xattr_supported fs) (stat_has_birthtime fs) (clock fs) l.

(** Time passes: the environment moves the clock forward. *)
Definition tick (dt : time) (fs : filesystem) : filesystem :=
  mk_fs (xattr_supported fs) (stat_has_birthtime fs) (clock fs + dt) (entries fs).

Fixpoint lookup (name : string) (l : list (string * inode)) : option inode :=
  match l with
  | [] => None
  | (n, i) :: l' => if String.eqb name n then Some i else lookup name l'
  end.

(** Replace the inode of an existing entry, which keeps its place. *)
Fixpoint replace (name : string) (i : inode) (l : list (string * inode))
  : list (string * inode) :=
  match l with
  | [] => []
  | (n, j) :: l' =>
      if String.eqb name n then (n, i) :: l' else (n, j) :: replace name i l'
  end.

Definition remove (name : string) (l : list (string * inode))
  : list (string * inode) :=
  filter (fun e => negb (String.eqb name (fst e))) l.

Definition is_name_char (c : ascii) : bool :=
  negb (Ascii.eqb c "/") && negb (Ascii.eqb c zero).

(** A name that is one path component.  Any other name makes the joined
    path point at the directory itself, above it or below one of its
    entries. *)
Definition valid_name (name : string) : bool :=
  negb (String.eqb name "") && negb (String.eqb name ".")
  && negb (String.eqb name "..")
  && forallb is_name_char (list_ascii_of_string name)
  && (String.length name <=? 255)%nat.

Definition M (A : Type) : Type := filesystem -> result A * filesystem.

Definition ret {A} (a : A) : M A := fun fs => (Ok a, fs).

Definition raise {A} (e : exn) : M A := fun fs => (Raise e, fs).

Definition bind {A B} (c : M A) (k : A -> M B) : M B :=
  fun fs =>
    match c fs with
    | (Ok a, fs') => k a fs'
    | (Raise e, fs') => (Raise e, fs')
    end.

Declare Scope py_scope.
Delimit Scope py_scope with py.
Notation "x <- c ;; k" := (bind c (fun x => k))
  (at level 61, c at next level, right associativity) : py_scope.
Notation "c ;; k" := (bind c (fun _ => k))
  (at level 61, right associativity) : py_scope.
Local Open Scope py_scope.

(** [try: c  except <classes>: h e]; [catches] says which exceptions the
    clause takes. *)
Definition try_except {A} (c : M A) (catches : exn -> bool) (h : exn -> M A) : M A :=
  fun fs =>
    match c fs with
    | (Ok a, fs') => (Ok a, fs')
    | (Raise e, fs') => if catches e then h e fs' else (Raise e, fs')
    end.

(** [try: c  except <classes>: h e  else: k a]; the [else] suite is outside
    the protected region. *)
Definition try_except_else {A B} (c : M A) (catches : exn -> bool)
    (h : exn -> M B) (k : A -> M B) : M B :=
  fun fs =>
    match c fs with
    | (Ok a, fs') => k a fs'
    | (Raise e, fs') => if catches e then h e fs' else (Raise e, fs')
    end.

(** [try: return c  finally: f]: the [finally] suite always runs, and an
    exception it raises replaces the outcome of [c]. *)
Definition try_finally {A} (c : M A) (f : M unit) : M A :=
  fun fs =>
    match c fs with
    | (r, fs') =>
        match f fs' with
        | (Ok _, fs'') => (r, fs'')
        | (Raise e, fs'') => (Raise e, fs'')
        end
    end.

(** [try: c  finally: return f]: the [return] in the [finally] suite
    discards whatever [c] raised. *)
Definition try_finally_return {A B} (c : M A) (f : M B) : M B :=
  fun fs => f (snd (c fs)).

(** *** Operating-system calls *)

Definition time_time : M time := fun fs => (Ok (clock fs), fs).

Definition os_path_exists (path : string) : M bool :=
  fun fs =>
    (Ok (match lookup path (entries fs) with Some _ => true | None => false end), fs).

Definition os_scandir : M (list string) :=
  fun fs => (Ok (map fst (entries fs)), fs).

(** [with open(path, "wb") as f: pickle.dump(value, f)].  A new file gets
    no attributes; an existing file is truncated in place and keeps them.
    Writing marks the status-change time.  The model lists a new file
    last; where [os.scandir] reports it is up to the file system, and no
    result below depends on it. *)
Definition open_wb_dump (path : string) (value : pyobj) : M unit :=
  fun fs =>
    if valid_name path then
      match lookup path (entries fs) with
      | Some i =>
          (Ok tt,
           with_entries fs
             (replace path
                (mk_inode value (birthtime_attr i) (key_attr i) (created i) (clock fs))
                (entries fs)))
      | None =>
          (Ok tt,
           with_entries fs
             (entries fs ++ [(path, mk_inode value None None (clock fs) (clock fs))]))
      end
    else (Raise (PathOutsideStore path), fs).

(** [with open(path, "rb") as f: return pickle.load(f)]. *)
Definition open_rb_load (path : string) : M pyobj :=
  fun fs =>
    if valid_name path then
      match lookup path (entries fs) with
      | Some i => (Ok (payload i), fs)
      | None => (Raise (FileNotFoundError path), fs)
      end
    else (Raise (PathOutsideStore path), fs).

Definition os_unlink (path : string) : M unit :=
  fun fs =>
    if valid_name path then
      match lookup path (entries fs) with
      | Some _ => (Ok tt, with_entries fs (remove path (entries fs)))
      | None => (Raise (FileNotFoundError path), fs)
      end
    else (Raise (PathOutsideStore path), fs).

(** [struct.unpack(">d", os.getxattr(path, "user.birthtime"))[0]]. *)
Definition os_getxattr_birthtime (path : string) : M time :=
  fun fs =>
    match lookup path (entries fs) with
    | None => (Raise (FileNotFoundError path), fs)
    | Some i =>
        if xattr_supported fs then
          match birthtime_attr i with
          | Some t => (Ok t, fs)
          | None => (Raise OSError, fs)
          end
        else (Raise OSError, fs)
    end.

Definition os_getxattr_key (path : string) : M bytes :=
  fun fs =>
    match lookup path (entries fs) with
    | None => (Raise (FileNotFoundError path), fs)
    | Some i =>
        if xattr_supported fs then
          match key_attr i with
          | Some k => (Ok k, fs)
          | None => (Raise OSError, fs)
          end
        else (Raise OSError, fs)
    end.

(** [os.setxattr(path, "user.birthtime", struct.pack(">d", t))]. *)
Definition os_setxattr_birthtime (path : string) (t : time) : M unit :=
  fun fs =>
    match lookup path (entries fs) with
    | None => (Raise (FileNotFoundError path), fs)
    | Some i =>
        if xattr_supported fs then
          (Ok tt,
           with_entries fs
             (replace path
                (mk_inode (payload i) (Some t) (key_attr i) (created i) (clock fs))
                (entries fs)))
        else (Raise OSError, fs)
    end.

Definition os_setxattr_key (path : string) (k : bytes) : M unit :=
  fun fs =>
    match lookup path (entries fs) with
    | None => (Raise (FileNotFoundError path), fs)
    | Some i =>
        if xattr_supported fs then
          (Ok tt,
           with_entries fs
             (replace path
                (mk_inode (payload i) (birthtime_attr i) (Some k) (created i) (clock fs))
                (entries fs)))
        else (Raise OSError, fs)
    end.

Record stat_result : Type := mk_stat {
  st_birthtime : option time;      (* [None]: the attribute is missing *)
  st_ctime : time
}.

Definition os_stat (path : string) : M stat_result :=
  fun fs =>
    match lookup path (entries fs) with
    | None => (Raise (FileNotFoundError path), fs)
    | Some i =>
        (Ok (mk_stat (if stat_has_birthtime fs then Some (created i) else None)
               (ctime i)), fs)
    end.

(** [key.encode()]: only text has the method. *)
Definition encode (key : pyobj) : M bytes :=
  match key with
  | PStr s => ret s
  | _ => raise AttributeError
  end.

Definition decode (b : bytes) : string := b.

(** ** Module-level helpers of [iodict/__init__.py] *)

Definition _get_create_time (path : string) : M time :=
  try_except (os_getxattr_birthtime path) is_OSError
    (fun _ =>
       stat <- os_stat path ;;
       match st_birthtime stat with
       | Some t => ret t
       | None => ret (st_ctime stat)      (* except AttributeError *)
       end).

Definition _get_item_key (path : string) : M string :=
  try_except_else (os_getxattr_key path) is_OSError
    (fun _ =>
       present <- os_path_exists path ;;
       if negb present then raise (FileNotFoundError path)
       else ret path)                     (* os.path.basename(path) *)
    (fun key => ret (decode key)).

(** [key] is [PNone] when the caller leaves the argument out. *)
Definition _setxattr (path : string) (key : pyobj) : M unit :=
  try_except_else
    (try_except (os_getxattr_birthtime path ;; ret tt) is_OSError
       (fun _ =>
          now <- time_time ;;
          os_setxattr_birthtime path now))
    is_OSError
    (fun _ => ret tt)
    (fun _ =>
       if truthy key then
         encoded <- encode key ;;
         os_setxattr_key path encoded
       else ret tt).

(** ** class BaseClass *)
Module BaseClass.

(** The value tells the [with] statement whether to swallow the
    exception: [False] lets it propagate.  Printing the traceback leaves
    the store untouched. *)
Definition __exit__ (exc_type : option exn) : M bool :=
  match exc_type with
  | Some _ => ret false      (* traceback.print_exception; return False *)
  | None => ret true
  end.

End BaseClass.

(** ** class IODict *)

(** An entry found by the directory scan: key, creation time, path. *)
Definition item : Type := (string * time * string)%type.
Definition item_key (it : item) : string := fst (fst it).
Definition item_time (it : item) : time := snd (fst it).
Definition item_path (it : item) : string := snd it.

(** [sorted(items, key=...)]: stable, ascending. *)
Fixpoint insert_sorted {A} (key : A -> Z) (x : A) (l : list A) : list A :=
  match l with
  | [] => [x]
  | y :: l' =>
      if key x <=? key y then x :: y :: l' else y :: insert_sorted key x l'
  end.

Definition sorted {A} (key : A -> Z) (l : list A) : list A :=
  fold_right (insert_sorted key) [] l.

(** [items[index]] with Python's negative indices. *)
Definition py_index {A} (l : list A) (index : Z) : M A :=
  let n := Z.of_nat (List.length l) in
  let i := if index <? 0 then index + n else index in
  if (0 <=? i) && (i <? n) then
    match nth_error l (Z.to_nat i) with
    | Some x => ret x
    | None => raise IndexError
    end
  else raise IndexError.

(** A store object: [identity] is what [id(self)] gives and [is]
    compares, [_encoder] the encoder chosen by [__init__].  The records
    are not in the object but in the directory.  The lock orders
    concurrent callers and has no effect on one caller. *)
Record IODict : Type := mk_IODict {
  identity : nat;
  _encoder : pyobj -> string
}.

Module IODict.

Section Init.
Variable pickle_dumps : pyobj -> bytes.

(** [__init__] fills in the object Python has just allocated at
    [address].  [_makedirs] leaves an existing directory as it is; the
    probe [os.listxattr] picks the encoder. *)
Definition __init__ (address : nat) : M IODict :=
  fun fs =>
    if xattr_supported fs
    then (Ok (mk_IODict address (_object_sha3_224 pickle_dumps)), fs)
    else (Ok (mk_IODict address str), fs).
End Init.

Definition __delitem__ (self : IODict) (key : pyobj) : M unit :=
  let item := _encoder self key in
  try_except (os_unlink item) is_FileNotFoundError
    (fun _ => raise (KeyError key)).

Definition __getitem__ (self : IODict) (key : pyobj) : M pyobj :=
  let file_object := _encoder self key in
  try_except (open_rb_load file_object) is_FileNotFoundError
    (fun _ => raise (KeyError key)).

Definition __setitem__ (self : IODict) (key value : pyobj) : M unit :=
  let file_object := _encoder self key in
  open_wb_dump file_object value ;;
  _setxattr file_object key.

(** The scan of [__iter__]: one triple for every entry that is still
    there when it is inspected. *)
Fixpoint scan (names : list string) : M (list item) :=
  match names with
  | [] => ret []
  | path :: rest =>
      present <- os_path_exists path ;;
      if negb present then scan rest
      else
        found <- try_except
                   (key <- _get_item_key path ;;
                    birth <- _get_create_time path ;;
                    ret [(key, birth, path)])
                   is_FileNotFoundError
                   (fun _ => ret []) ;;
        others <- scan rest ;;
        ret (found ++ others)%list
  end.

(** The body of [__iter__] up to and including [sorted].  The directory
    of the store exists from [__init__] on. *)
Definition iter_items (self : IODict) : M (list item) :=
  names <- os_scandir ;;
  items <- scan names ;;
  ret (sorted item_time items).

(** A generator made by [__iter__]: not started, suspended at a [yield]
    of the loop over the sorted items, or run to its end. *)
Inductive generator : Type :=
  | Created (index : option Z)
  | Suspended (rest : list item)
  | Exhausted.

(** Calling [__iter__] builds the generator and runs none of its body. *)
Definition __iter__ (self : IODict) (index : option Z) : generator :=
  Created index.

(** The last loop of [__iter__], from the items still to visit up to the
    next [yield]: an item whose file is gone is passed over. *)
Fixpoint resume (rest : list item) : M (pyobj * generator) :=
  match rest with
  | [] => raise StopIteration
  | it :: rest' =>
      present <- os_path_exists (item_path it) ;;
      if negb present then resume rest'
      else ret (PStr (item_key it), Suspended rest')
  end.

(** [next(g)]: the body of [__iter__] from where it stands to the next
    [yield]; [StopIteration] when the body returns.  With an index, and
    the chosen file gone, the nested call only builds a generator that
    nobody runs, and the body ends without a [yield]. *)
Definition next (self : IODict) (g : generator) : M (pyobj * generator) :=
  match g with
  | Created index =>
      items <- iter_items self ;;
      match items with
      | [] => raise StopIteration
      | _ =>
          match index with
          | Some i =>
              it <- py_index items i ;;
              present <- os_path_exists (item_path it) ;;
              if negb present then
                let _ := __iter__ self index in
                raise StopIteration
              else ret (PStr (item_key it), Exhausted)
          | None => resume items
          end
      end
  | Suspended rest => resume rest
  | Exhausted => raise StopIteration
  end.

(** [for x in g: acc = body acc x] for a generator suspended with [items]
    still to visit: [next], the body, [next], ... until [StopIteration]
    ([for_items_unfold] below). *)
Fixpoint for_items {A} (items : list item) (body : A -> pyobj -> M A) (acc : A)
  : M A :=
  match items with
  | [] => ret acc
  | it :: rest =>
      present <- os_path_exists (item_path it) ;;
      if negb present then for_items rest body acc
      else
        acc' <- body acc (PStr (item_key it)) ;;
        for_items rest body acc'
  end.

(** [for x in self.__iter__(): acc = body acc x] *)
Definition for_iter {A} (self : IODict) (body : A -> pyobj -> M A) (acc : A) : M A :=
  items <- iter_items self ;;
  for_items items body acc.

Definition __len__ (self : IODict) : M Z :=
  for_iter self (fun count _ => ret (count + 1)) 0.

Definition clear (self : IODict) : M unit :=
  for_iter self (fun _ item => __delitem__ self item) tt.

(** [keys()], run to its end: the keys in the order they are yielded. *)
Definition keys (self : IODict) : M (list pyobj) :=
  for_iter self (fun acc item => ret (acc ++ [item])%list) [].

Definition __exit__ (self : IODict) (exc_type : option exn) : M bool :=
  try_finally_return (clear self) (BaseClass.__exit__ exc_type).

Definition __enter__ (self : IODict) : M IODict := ret self.

(** [with self as d: body(d)], by the rules of the language: [__exit__]
    is called with the exception that left the body, if any, and a false
    answer raises that exception again.  The statement itself has no
    value; the model hands out the value of the body, or [None] when an
    exception was swallowed. *)
Definition with_statement {A} (self : IODict) (body : IODict -> M A)
  : M (option A) :=
  d <- __enter__ self ;;
  try_except_else (body d) (fun _ => true)
    (fun e =>
       swallow <- __exit__ self (Some e) ;;
       if swallow then ret None else raise e)
    (fun a =>
       __exit__ self None ;;
       ret (Some a)).

(** [copy] hands back the object itself. *)
Definition copy (self : IODict) : M IODict := ret self.

Definition get (self : IODict) (key default : pyobj) : M pyobj :=
  try_except (__getitem__ self key) is_KeyError (fun _ => ret default).

Definition pop (self : IODict) (key default : pyobj) : M pyobj :=
  try_except
    (try_finally (__getitem__ self key) (__delitem__ self key))
    is_KeyError
    (fun e => if truthy default then ret default else raise e).

Definition popitem (self : IODict) : M pyobj :=
  try_except
    (yielded <- next self (__iter__ self (Some 0)) ;;
     pop self (fst yielded) PNone)
    (fun e => match e with IndexError | StopIteration => true | _ => false end)
    (fun _ => raise (KeyError (PStr "popitem(): dictionary is empty"))).

Definition setdefault (self : IODict) (key default : pyobj) : M pyobj :=
  __setitem__ self key default ;;
  ret default.


(** [items()], run to its end: [keys()] hands over one key at a time and
    the value is read before the next key is asked for. *)
Definition items (self : IODict) : M (list (pyobj * pyobj)) :=
  for_iter self
    (fun acc item =>
       value <- __getitem__ self item ;;
       ret (acc ++ [(item, value)])%list)
    [].


(** [values()], run to its end. *)
Definition values (self : IODict) : M (list pyobj) :=
  for_iter self
    (fun acc item =>
       value <- __getitem__ self item ;;
       ret (acc ++ [value])%list)
    [].

End IODict.

(** ** What the operations leave behind, in closed form *)

(** The inode at [path] after [__setitem__(key, value)], [old] being what
    was there before. *)
Definition set_inode (fs : filesystem) (key value : pyobj) (old : option inode)
  : inode :=
  let now := clock fs in
  let birth := match old with Some i => birthtime_attr i | None => None end in
  let kattr := match old with Some i => key_attr i | None => None end in
  let made := match old with Some i => created i | None => now end in
  if xattr_supported fs then
    mk_inode value
      (Some (match birth with Some t => t | None => now end))
      (match key with
       | PStr s => if truthy key then Some s else kattr
       | _ => kattr
       end)
      made now
  else mk_inode value birth kattr made now.

Definition put (name : string) (i : inode) (l : list (string * inode))
  : list (string * inode) :=
  match lookup name l with
  | Some _ => replace name i l
  | None => l ++ [(name, i)]
  end.

(** The key under which the scan lists an entry, and the time it sorts
    the entry by. *)
Definition listed_key (fs : filesystem) (name : string) (i : inode) : string :=
  if xattr_supported fs then
    match key_attr i with Some k => decode k | None => name end
  else name.

Definition listed_time (fs : filesystem) (i : inode) : time :=
  match (if xattr_supported fs then birthtime_attr i else None) with
  | Some t => t
  | None => if stat_has_birthtime fs then created i else ctime i
  end.

Definition item_of (fs : filesystem) (name : string) : list item :=
  match lookup name (entries fs) with
  | Some i => [(listed_key fs name i, listed_time fs i, name)]
  | None => []
  end.

Definition scan_result (fs : filesystem) : list item :=
  flat_map (item_of fs) (map fst (entries fs)).

(** The records in iteration order. *)
Definition listing (fs : filesystem) : list item :=
  sorted item_time (scan_result fs).

(** Where an item stands in the iteration order: its time and its file. *)
Definition item_slot (it : item) : time * string := (item_time it, item_path it).


(** [__setitem__] runs to its end on this key: text, or a false value, or
    a file system without attributes. *)
Definition writable (fs : filesystem) (key : pyobj) : bool :=
  negb (xattr_supported fs && truthy key && negb (is_str key)).

(** Every entry is listed under a key that leads back to the entry. *)
Definition resolves (self : IODict) (fs : filesystem) : Prop :=
  forall name i, lookup name (entries fs) = Some i ->
    _encoder self (PStr (listed_key fs name i)) = name /\ valid_name name = true.

(** No name occurs twice in the directory. *)
Definition directory_ok (fs : filesystem) : Prop :=
  NoDup (map fst (entries fs)).

(** Ascending in the sort key. *)
Definition key_le {A} (key : A -> Z) (a b : A) : Prop := key a <= key b.



(** ** Sample stores *)

(** A protocol-4 pickle for the sample runs: [pickle.dumps(1)] is
    [80 04 4b 01 2e]; other values do not occur as keys there. *)
Definition sample_pickle (o : pyobj) : bytes :=
  match o with
  | PInt 1 =>
      String (ascii_of_nat 128) (String (ascii_of_nat 4)
        (String "K" (String (ascii_of_nat 1) (String "." EmptyString))))
  | _ => EmptyString
  end.

(** An empty directory on a file system with extended attributes, and one
    on a file system without them, where [os.stat] has no [st_birthtime]. *)
Definition fs_xattr : filesystem := mk_fs true false 1000 [].
Definition fs_plain : filesystem := mk_fs false false 1000 [].

Definition store_xattr : IODict := mk_IODict 1 (_object_sha3_224 sample_pickle).
Definition store_plain : IODict := mk_IODict 2 str.

(** The state a computation ends in, and its outcome. *)
Definition after {A} (c : M A) (fs : filesystem) : filesystem := snd (c fs).
Definition outcome {A} (c : M A) (fs : filesystem) : result A := fst (c fs).

(** [a], then [b] one tick later, written to the plain sample store. *)
Definition fs_plain_ab : filesystem :=
  after (IODict.__setitem__ store_plain (PStr "b") (PInt 2))
    (tick 1 (after (IODict.__setitem__ store_plain (PStr "a") (PInt 1)) fs_plain)).

Definition fs_xattr_ab : filesystem :=
  after (IODict.__setitem__ store_xattr (PStr "b") (PInt 2))
    (tick 1 (after (IODict.__setitem__ store_xattr (PStr "a") (PInt 1)) fs_xattr)).

(** The store after [d[""] = 1] on the file system with attributes. *)
Definition fs_xattr_empty_key : filesystem :=
  after (IODict.__setitem__ store_xattr (PStr "") (PInt 1)) fs_xattr.

(** ** Client loops *)

(** [popitem()] called [n] times, the values in the order they came. *)
Fixpoint popitems (self : IODict) (n : nat) : M (list pyobj) :=
  match n with
  | O => ret []
  | S n' =>
      value <- IODict.popitem self ;;
      others <- popitems self n' ;;
      ret (value :: others)
  end.

(** The file of an item is still in the directory. *)
Definition still_there (fs : filesystem) (it : item) : bool :=
  match lookup (item_path it) (entries fs) with Some _ => true | None => false end.

(** The value an item of the listing stands for. *)
Definition item_value (fs : filesystem) (it : item) : pyobj :=
  match lookup (item_path it) (entries fs) with
  | Some i => payload i
  | None => PNone
  end.


(** Lower-case hexadecimal digit. *)
Definition is_hex_digit (c : ascii) : bool :=
  let n := nat_of_ascii c in
  ((48 <=? n) && (n <=? 57) || (97 <=? n) && (n <=? 102))%nat.

(** [a], [b], [c] written one tick apart on the file system with
    attributes. *)
Definition fs_xattr_abc : filesystem :=
  after (IODict.__setitem__ store_xattr (PStr "c") (PInt 3)) (tick 1 fs_xattr_ab).

(** * Properties *)

Local Open Scope list_scope.

(** ** Test vectors *)

Example sha3_224_empty :
  Keccak.sha3_224_hexdigest ""
  = "6b4e03423667dbb73b6e15454f0eb1abd4597f9a1b078e3f5b5a6bc7".
Proof. vm_compute. reflexivity. Qed.

Example sha3_224_abc :
  Keccak.sha3_224_hexdigest "abc"
  = "e642824c3f8cf24ad09234ee7d3c766fc9a3a5168d0c94ad73b46fdf".
Proof. vm_compute. reflexivity. Qed.

Example sha3_224_two_blocks :
  Keccak.sha3_224_hexdigest
    "kkkkkkkkkkkkkkkkkkkkkkkkkkkkkkkkkkkkkkkkkkkkkkkkkkkkkkkkkkkkkkkkkkkkkkkkkkkkkkkkkkkkkkkkkkkkkkkkkkkkkkkkkkkkkkkkkkkkkkkkkkkkkkkkkkkkkkkkkkkkkkkkkkkkkk"
  = "09e6647e0717165588956d47e3ec5415c8e1a1529d0c1532db9ee05a".
Proof. vm_compute. reflexivity. Qed.

Example str_of_int :
  (str (PInt 0), str (PInt 7), str (PInt 10), str (PInt 1234), str (PInt (-56)))
  = ("0", "7", "10", "1234", "-56").
Proof. vm_compute. reflexivity. Qed.

(** ** The directory as an association list *)

Lemma lookup_app (name : string) (l l' : list (string * inode)) :
  lookup name (l ++ l') =
  match lookup name l with Some i => Some i | None => lookup name l' end.
Proof.
  induction l as [|[n j] l IH]; simpl; [reflexivity|].
  destruct (String.eqb name n); [reflexivity | exact IH].
Qed.

Lemma lookup_replace_same (name : string) (i : inode) (l : list (string * inode)) :
  lookup name l <> None -> lookup name (replace name i l) = Some i.
Proof.
  induction l as [|[n j] l IH]; simpl; [congruence|].
  destruct (String.eqb name n) eqn:E; simpl; rewrite E; auto.
Qed.

Lemma lookup_replace_other (name other : string) (i : inode) (l : list (string * inode)) :
  other <> name -> lookup other (replace name i l) = lookup other l.
Proof.
  intros Hne. induction l as [|[n j] l IH]; simpl; [reflexivity|].
  destruct (String.eqb name n) eqn:E; simpl.
  - apply String.eqb_eq in E. subst n.
    destruct (String.eqb other name) eqn:E'; [|reflexivity].
    apply String.eqb_eq in E'. contradiction.
  - rewrite IH. reflexivity.
Qed.

Lemma names_replace (name : string) (i : inode) (l : list (string * inode)) :
  map fst (replace name i l) = map fst l.
Proof.
  induction l as [|[n j] l IH]; simpl; [reflexivity|].
  destruct (String.eqb name n); simpl; [reflexivity | now rewrite IH].
Qed.

Lemma replace_replace (name : string) (i j : inode) (l : list (string * inode)) :
  replace name j (replace name i l) = replace name j l.
Proof.
  induction l as [|[n k] l IH]; simpl; [reflexivity|].
  destruct (String.eqb name n) eqn:E; simpl; rewrite E; [reflexivity | now rewrite IH].
Qed.

Lemma replace_app_fresh (name : string) (i j : inode) (l : list (string * inode)) :
  lookup name l = None ->
  replace name j (l ++ [(name, i)]) = l ++ [(name, j)].
Proof.
  induction l as [|[n k] l IH]; simpl; intros H.
  - now rewrite String.eqb_refl.
  - destruct (String.eqb name n); [discriminate | now rewrite IH].
Qed.

Lemma lookup_remove_same (name : string) (l : list (string * inode)) :
  lookup name (remove name l) = None.
Proof.
  induction l as [|[n j] l IH]; simpl; [reflexivity|].
  destruct (String.eqb name n) eqn:E; simpl; [exact IH | now rewrite E].
Qed.

Lemma lookup_remove_other (name other : string) (l : list (string * inode)) :
  other <> name -> lookup other (remove name l) = lookup other l.
Proof.
  intros Hne. induction l as [|[n j] l IH]; simpl; [reflexivity|].
  destruct (String.eqb name n) eqn:E; simpl.
  - apply String.eqb_eq in E. subst n.
    destruct (String.eqb other name) eqn:E'; [apply String.eqb_eq in E'; contradiction | exact IH].
  - now rewrite IH.
Qed.

Lemma lookup_In (name : string) (i : inode) (l : list (string * inode)) :
  lookup name l = Some i -> In (name, i) l.
Proof.
  induction l as [|[n j] l IH]; simpl; [discriminate|].
  destruct (String.eqb name n) eqn:E.
  - apply String.eqb_eq in E. intros [= ->]. left. now subst.
  - intros H. right. auto.
Qed.

Lemma lookup_None_names (name : string) (l : list (string * inode)) :
  lookup name l = None <-> ~ In name (map fst l).
Proof.
  induction l as [|[n j] l IH]; simpl; [tauto|].
  destruct (String.eqb name n) eqn:E.
  - apply String.eqb_eq in E. split; [discriminate | intros H; exfalso; auto].
  - apply String.eqb_neq in E. rewrite IH. split; [intros H [H'|H']; auto | tauto].
Qed.

Lemma lookup_put_same (name : string) (i : inode) (l : list (string * inode)) :
  lookup name (put name i l) = Some i.
Proof.
  unfold put. destruct (lookup name l) eqn:E.
  - apply lookup_replace_same. congruence.
  - rewrite lookup_app, E. simpl. now rewrite String.eqb_refl.
Qed.

Lemma lookup_put_other (name other : string) (i : inode) (l : list (string * inode)) :
  other <> name -> lookup other (put name i l) = lookup other l.
Proof.
  intros Hne. unfold put. destruct (lookup name l) eqn:E.
  - now apply lookup_replace_other.
  - rewrite lookup_app. destruct (lookup other l); [reflexivity|].
    simpl. destruct (String.eqb other name) eqn:E'; [|reflexivity].
    apply String.eqb_eq in E'. contradiction.
Qed.

(** ** [__setitem__] in closed form *)

Ltac run :=
  unfold IODict.__setitem__, IODict.__getitem__, IODict.__delitem__,
    IODict.get, IODict.pop, IODict.setdefault, IODict.copy,
    _setxattr, _get_item_key, _get_create_time,
    open_wb_dump, open_rb_load, os_unlink, os_getxattr_birthtime,
    os_getxattr_key, os_setxattr_birthtime, os_setxattr_key, os_stat,
    os_path_exists, time_time, encode,
    try_except, try_except_else, try_finally, try_finally_return,
    bind, ret, raise, with_entries; simpl.

(** The effect of [__setitem__] on the directory, and its outcome: the
    call raises [AttributeError] exactly when the file system takes
    attributes and the key is true but is not text; the payload has been
    written by then. *)
Lemma setitem_closed_form (self : IODict) (key value : pyobj) (fs : filesystem) :
  valid_name (_encoder self key) = true ->
  IODict.__setitem__ self key value fs =
  ((if xattr_supported fs && truthy key && negb (is_str key)
    then Raise AttributeError else Ok tt),
   with_entries fs
     (put (_encoder self key)
        (set_inode fs key value (lookup (_encoder self key) (entries fs)))
        (entries fs))).
Proof.
  intros Hvalid. unfold put, set_inode. run. rewrite Hvalid.
  set (name := _encoder self key).
  destruct (lookup name (entries fs)) as [old|] eqn:Hold;
    destruct (xattr_supported fs) eqn:Hx; simpl;
    [ destruct (birthtime_attr old) as [t|] eqn:Hb | | | ];
    destruct key as [|[|]|z|s]; simpl;
    try destruct (z =? 0); try destruct (String.eqb s ""); simpl;
    repeat (first
      [ rewrite lookup_replace_same
          by (repeat (rewrite lookup_replace_same by congruence); congruence)
      | rewrite replace_replace
      | rewrite replace_app_fresh by assumption
      | rewrite lookup_app, Hold
      | rewrite String.eqb_refl ]; simpl);
    reflexivity.
Qed.

(** ** [sorted] is a stable sort *)

Section Sorting.

Context {A : Type} (key : A -> Z).

Lemma insert_sorted_perm (x : A) (l : list A) :
  Permutation (insert_sorted key x l) (x :: l).
Proof.
  induction l as [|y l IH]; simpl; [reflexivity|].
  destruct (key x <=? key y); [reflexivity|].
  rewrite IH. apply perm_swap.
Qed.

Lemma sorted_perm (l : list A) : Permutation (sorted key l) l.
Proof.
  induction l as [|x l IH]; simpl; [reflexivity|].
  rewrite insert_sorted_perm. now constructor.
Qed.

Lemma insert_sorted_ordered (x : A) (l : list A) :
  StronglySorted (key_le key) l -> StronglySorted (key_le key) (insert_sorted key x l).
Proof.
  induction l as [|y l IH]; simpl; intros Hs.
  - constructor; constructor.
  - inversion Hs as [|? ? Hl Hall]; subst.
    destruct (key x <=? key y) eqn:E.
    + apply Z.leb_le in E. constructor; [assumption|].
      constructor; [exact E|].
      eapply Forall_impl; [|exact Hall].
      intros z Hz. unfold key_le in *. lia.
    + apply Z.leb_gt in E. constructor; [auto|].
      rewrite (Forall_forall (key_le key y)). intros z Hz.
      apply (Permutation_in _ (insert_sorted_perm x l)) in Hz.
      destruct Hz as [<-|Hz]; [unfold key_le; lia|].
      rewrite Forall_forall in Hall. auto.
Qed.

Lemma sorted_ordered (l : list A) : StronglySorted (key_le key) (sorted key l).
Proof.
  induction l as [|x l IH]; simpl; [constructor|].
  now apply insert_sorted_ordered.
Qed.



Lemma sorted_length (l : list A) : List.length (sorted key l) = List.length l.
Proof. apply Permutation_length, sorted_perm. Qed.

Lemma sorted_In (x : A) (l : list A) : In x (sorted key l) <-> In x l.
Proof.
  split; apply Permutation_in; [|symmetry]; apply sorted_perm.
Qed.


End Sorting.

Lemma sorted_map {A B : Type} (f : A -> B) (key : A -> Z) (key' : B -> Z)
    (l : list A) :
  (forall x, key' (f x) = key x) ->
  map f (sorted key l) = sorted key' (map f l).
Proof.
  intros Hk. induction l as [|x l IH]; [reflexivity|].
  cbn [sorted fold_right map]. fold (sorted key l). fold (sorted key' (map f l)).
  rewrite <- IH. generalize (sorted key l) as s. clear IH.
  induction s as [|y s IHs]; [reflexivity|].
  cbn [insert_sorted map]. rewrite !Hk.
  destruct (key x <=? key y); cbn [map]; [reflexivity | now rewrite IHs].
Qed.

(** ** The directory scan *)

Lemma get_item_key_closed_form (fs : filesystem) (name : string) (i : inode) :
  lookup name (entries fs) = Some i ->
  _get_item_key name fs = (Ok (listed_key fs name i), fs).
Proof.
  intros H. unfold listed_key. run. rewrite H.
  destruct (xattr_supported fs); simpl; [destruct (key_attr i); simpl|];
    rewrite ?H; reflexivity.
Qed.

Lemma get_create_time_closed_form (fs : filesystem) (name : string) (i : inode) :
  lookup name (entries fs) = Some i ->
  _get_create_time name fs = (Ok (listed_time fs i), fs).
Proof.
  intros H. unfold listed_time. run. rewrite H.
  destruct (xattr_supported fs); simpl; [destruct (birthtime_attr i); simpl|];
    rewrite ?H; destruct (stat_has_birthtime fs); reflexivity.
Qed.

Lemma scan_closed_form (names : list string) (fs : filesystem) :
  IODict.scan names fs = (Ok (flat_map (item_of fs) names), fs).
Proof.
  induction names as [|name names IH]; [reflexivity|].
  cbn [IODict.scan flat_map]. unfold bind at 1. unfold os_path_exists at 1.
  unfold item_of at 1.
  destruct (lookup name (entries fs)) as [i|] eqn:H; cbn [negb].
  - unfold bind, try_except.
    rewrite (get_item_key_closed_form _ _ _ H), (get_create_time_closed_form _ _ _ H).
    unfold ret. rewrite IH. reflexivity.
  - exact IH.
Qed.

Lemma iter_items_closed_form (self : IODict) (fs : filesystem) :
  IODict.iter_items self fs = (Ok (listing fs), fs).
Proof.
  unfold IODict.iter_items, os_scandir, bind. now rewrite scan_closed_form.
Qed.

Lemma scan_result_paths (fs : filesystem) :
  map item_path (scan_result fs) = map fst (entries fs).
Proof.
  unfold scan_result.
  assert (H : forall names, (forall n, In n names -> lookup n (entries fs) <> None) ->
                       map item_path (flat_map (item_of fs) names) = names).
  { induction names as [|n names IH]; intros Hall; [reflexivity|].
    cbn [flat_map]. rewrite map_app, IH by (intros; apply Hall; now right).
    unfold item_of. specialize (Hall n (or_introl eq_refl)).
    destruct (lookup n (entries fs)); [reflexivity | congruence]. }
  apply H. intros n Hn Hnone. now apply lookup_None_names in Hnone.
Qed.

Lemma listing_length (fs : filesystem) :
  List.length (listing fs) = List.length (entries fs).
Proof.
  unfold listing. rewrite sorted_length.
  rewrite <- (length_map item_path), scan_result_paths. apply length_map.
Qed.

Lemma scan_result_In (fs : filesystem) (it : item) :
  In it (scan_result fs) <->
  exists i, lookup (item_path it) (entries fs) = Some i
            /\ it = (listed_key fs (item_path it) i, listed_time fs i, item_path it).
Proof.
  unfold scan_result. rewrite in_flat_map. split.
  - intros (name & _ & Hin). unfold item_of in Hin.
    destruct (lookup name (entries fs)) as [i|] eqn:H; [|contradiction].
    destruct Hin as [<-|[]]. exists i. now split.
  - intros (i & H & Heq). exists (item_path it). split.
    + destruct (in_dec string_dec (item_path it) (map fst (entries fs))) as [Hin|Hnot];
        [assumption|].
      apply lookup_None_names in Hnot. congruence.
    + unfold item_of. rewrite H. left. now symmetry.
Qed.

Lemma listing_In (fs : filesystem) (it : item) :
  In it (listing fs) <->
  exists i, lookup (item_path it) (entries fs) = Some i
            /\ it = (listed_key fs (item_path it) i, listed_time fs i, item_path it).
Proof. unfold listing. rewrite sorted_In. apply scan_result_In. Qed.

(** A loop whose body leaves the directory alone visits every item. *)
Lemma for_items_pure {A} (f : A -> pyobj -> A) (body : A -> pyobj -> M A)
    (fs : filesystem) (items : list item) (acc : A) :
  (forall a x, body a x fs = (Ok (f a x), fs)) ->
  (forall it, In it items -> lookup (item_path it) (entries fs) <> None) ->
  IODict.for_items items body acc fs
  = (Ok (fold_left (fun a it => f a (PStr (item_key it))) items acc), fs).
Proof.
  intros Hbody. revert acc. induction items as [|it items IH]; intros acc Hall;
    [reflexivity|].
  cbn [IODict.for_items fold_left]. unfold bind at 1, os_path_exists at 1.
  destruct (lookup (item_path it) (entries fs)) eqn:H;
    [|exfalso; apply (Hall it); [now left | assumption]].
  cbn [negb]. unfold bind. rewrite Hbody. apply IH.
  intros it' Hin. apply Hall. now right.
Qed.

(** The [for] loop is the iterator protocol: ask the suspended generator
    for the next key, run the body, go on with what is left; leave at
    [StopIteration]. *)
Lemma for_items_unfold {A} (items : list item) (body : A -> pyobj -> M A)
    (acc : A) (fs : filesystem) :
  IODict.for_items items body acc fs
  = match IODict.resume items fs with
    | (Ok (x, IODict.Suspended rest), fs') =>
        bind (body acc x) (IODict.for_items rest body) fs'
    | (Ok (_, _), fs') => (Ok acc, fs')
    | (Raise StopIteration, fs') => (Ok acc, fs')
    | (Raise e, fs') => (Raise e, fs')
    end.
Proof.
  induction items as [|it items IH]; [reflexivity|].
  cbn [IODict.for_items IODict.resume]. unfold bind at 1 3, os_path_exists.
  destruct (lookup (item_path it) (entries fs)); cbn [negb]; [reflexivity|].
  exact IH.
Qed.

Lemma listing_present (fs : filesystem) (it : item) :
  In it (listing fs) -> lookup (item_path it) (entries fs) <> None.
Proof. rewrite listing_In. intros (i & H & _). congruence. Qed.

Lemma keys_closed_form (self : IODict) (fs : filesystem) :
  IODict.keys self fs = (Ok (map (fun it => PStr (item_key it)) (listing fs)), fs).
Proof.
  unfold IODict.keys, IODict.for_iter, bind. rewrite iter_items_closed_form.
  rewrite (for_items_pure (fun acc x => acc ++ [x]))
    by (auto using listing_present).
  f_equal. f_equal.
  assert (H : forall l acc,
             fold_left (fun a it => a ++ [PStr (item_key it)]) l acc
             = acc ++ map (fun it => PStr (item_key it)) l).
  { induction l as [|x l IH]; intros acc; cbn [fold_left map].
    - now rewrite app_nil_r.
    - rewrite IH, <- app_assoc. reflexivity. }
  apply H.
Qed.

Lemma len_closed_form (self : IODict) (fs : filesystem) :
  IODict.__len__ self fs = (Ok (Z.of_nat (List.length (entries fs))), fs).
Proof.
  unfold IODict.__len__, IODict.for_iter, bind. rewrite iter_items_closed_form.
  rewrite (for_items_pure (fun count _ => count + 1))
    by (auto using listing_present).
  f_equal. f_equal. rewrite <- listing_length.
  assert (H : forall (l : list item) acc,
             fold_left (fun a _ => a + 1) l acc = acc + Z.of_nat (List.length l)).
  { induction l as [|x l IH]; intros acc; cbn [fold_left List.length].
    - lia.
    - rewrite IH. lia. }
  apply H.
Qed.

(** ** Lookup, deletion and [pop] on one key *)

Section OneKey.

Variables (self : IODict) (key : pyobj) (fs : filesystem).
Let name := _encoder self key.
Hypothesis Hvalid : valid_name name = true.

Lemma getitem_present (i : inode) :
  lookup name (entries fs) = Some i ->
  IODict.__getitem__ self key fs = (Ok (payload i), fs).
Proof. intros H. run. fold name. now rewrite Hvalid, H. Qed.

Lemma getitem_absent :
  lookup name (entries fs) = None ->
  IODict.__getitem__ self key fs = (Raise (KeyError key), fs).
Proof. intros H. run. fold name. now rewrite Hvalid, H. Qed.

Lemma delitem_present (i : inode) :
  lookup name (entries fs) = Some i ->
  IODict.__delitem__ self key fs
  = (Ok tt, with_entries fs (remove name (entries fs))).
Proof. intros H. run. fold name. now rewrite Hvalid, H. Qed.

Lemma delitem_absent :
  lookup name (entries fs) = None ->
  IODict.__delitem__ self key fs = (Raise (KeyError key), fs).
Proof. intros H. run. fold name. now rewrite Hvalid, H. Qed.

Lemma pop_present (default : pyobj) (i : inode) :
  lookup name (entries fs) = Some i ->
  IODict.pop self key default fs
  = (Ok (payload i), with_entries fs (remove name (entries fs))).
Proof.
  intros H. unfold IODict.pop, try_except, try_finally.
  rewrite (getitem_present _ H), (delitem_present _ H). reflexivity.
Qed.

(** On a key without a record the default comes back only when it is a
    true value. *)
Lemma pop_absent (default : pyobj) :
  lookup name (entries fs) = None ->
  IODict.pop self key default fs
  = ((if truthy default then Ok default else Raise (KeyError key)), fs).
Proof.
  intros H. unfold IODict.pop, try_except, try_finally.
  rewrite (getitem_absent H), (delitem_absent H). cbn.
  destruct (truthy default); reflexivity.
Qed.

Lemma get_present (default : pyobj) (i : inode) :
  lookup name (entries fs) = Some i ->
  IODict.get self key default fs = (Ok (payload i), fs).
Proof.
  intros H. unfold IODict.get, try_except. now rewrite (getitem_present _ H).
Qed.

Lemma get_absent (default : pyobj) :
  lookup name (entries fs) = None ->
  IODict.get self key default fs = (Ok default, fs).
Proof.
  intros H. unfold IODict.get, try_except. now rewrite (getitem_absent H).
Qed.

End OneKey.

Lemma setitem_outside (self : IODict) (key value : pyobj) (fs : filesystem) :
  valid_name (_encoder self key) = false ->
  IODict.__setitem__ self key value fs
  = (Raise (PathOutsideStore (_encoder self key)), fs).
Proof. intros H. run. now rewrite H. Qed.

(** ** [clear] and [__exit__] *)

Lemma remove_absent (name : string) (l : list (string * inode)) :
  lookup name l = None -> remove name l = l.
Proof.
  induction l as [|[n j] l IH]; simpl; [reflexivity|].
  destruct (String.eqb name n); [discriminate|].
  intros H. simpl. now rewrite IH.
Qed.

Lemma remove_all_names (names : list string) (l : list (string * inode)) :
  (forall n, In n (map fst l) -> In n names) ->
  fold_left (fun l' n => remove n l') names l = [].
Proof.
  assert (H : forall names l,
             fold_left (fun l' n => remove n l') names l
             = filter (fun e => negb (existsb (String.eqb (fst e)) names)) l).
  { clear. induction names as [|n names IH]; intros l; cbn [fold_left].
    - cbn. induction l as [|e l IHl]; [reflexivity|]. cbn. now rewrite <- IHl.
    - rewrite IH. unfold remove. induction l as [|e l IHl]; [reflexivity|].
      cbn [filter existsb]. rewrite (String.eqb_sym (fst e) n).
      destruct (String.eqb n (fst e)); cbn [negb orb filter]; rewrite IHl;
        reflexivity. }
  intros Hall. rewrite H. clear H.
  induction l as [|e l IH]; [reflexivity|].
  cbn [filter].
  assert (Hin : existsb (String.eqb (fst e)) names = true).
  { apply existsb_exists. exists (fst e). split; [|apply String.eqb_refl].
    apply Hall. now left. }
  rewrite Hin. cbn [negb]. apply IH. intros n Hn. apply Hall. now right.
Qed.

Lemma clear_items (self : IODict) (items : list item) (fs : filesystem) :
  Forall (fun it => _encoder self (PStr (item_key it)) = item_path it
                    /\ valid_name (item_path it) = true) items ->
  IODict.for_items items (fun _ x => IODict.__delitem__ self x) tt fs
  = (Ok tt,
     with_entries fs
       (fold_left (fun l n => remove n l) (map item_path items) (entries fs))).
Proof.
  intros Hall. revert fs. induction Hall as [|it items [Henc Hv] _ IH]; intros fs.
  - destruct fs; reflexivity.
  - cbn [IODict.for_items map fold_left]. unfold bind at 1, os_path_exists at 1.
    destruct (lookup (item_path it) (entries fs)) as [i|] eqn:H; cbn [negb].
    + unfold bind. rewrite <- Henc in H, Hv.
      rewrite (delitem_present _ _ _ Hv _ H). rewrite IH. rewrite Henc. reflexivity.
    + rewrite IH, (remove_absent _ _ H). reflexivity.
Qed.

(** On a store whose entries are all listed under a key that leads back
    to them, [clear] empties the directory. *)
Lemma clear_closed_form (self : IODict) (fs : filesystem) :
  resolves self fs ->
  IODict.clear self fs = (Ok tt, with_entries fs []).
Proof.
  intros Hres. unfold IODict.clear, IODict.for_iter, bind.
  rewrite iter_items_closed_form, clear_items.
  - rewrite remove_all_names; [reflexivity|].
    intros n Hn. unfold listing.
    rewrite <- scan_result_paths in Hn.
    apply in_map_iff in Hn. destruct Hn as (it & <- & Hin).
    apply in_map, sorted_In, Hin.
  - apply Forall_forall. intros it Hin. apply listing_In in Hin.
    destruct Hin as (i & H & Heq). destruct (Hres _ _ H) as [Henc Hv].
    rewrite Heq at 1. split; assumption.
Qed.

Lemma exit_closed_form (self : IODict) (exc : option exn) (fs : filesystem) :
  IODict.__exit__ self exc fs
  = (Ok (match exc with Some _ => false | None => true end),
     after (IODict.clear self) fs).
Proof.
  unfold IODict.__exit__, try_finally_return, BaseClass.__exit__, after.
  destruct exc; reflexivity.
Qed.

(** ** [popitem] *)

Lemma listing_nil (fs : filesystem) : entries fs = [] <-> listing fs = [].
Proof.
  split; intros H.
  - unfold listing, scan_result. now rewrite H.
  - apply length_zero_iff_nil. rewrite <- listing_length, H. reflexivity.
Qed.

Lemma popitem_empty (self : IODict) (fs : filesystem) :
  entries fs = [] ->
  IODict.popitem self fs
  = (Raise (KeyError (PStr "popitem(): dictionary is empty")), fs).
Proof.
  intros H. apply listing_nil in H.
  unfold IODict.popitem, IODict.next, IODict.__iter__, try_except, bind.
  rewrite iter_items_closed_form, H. reflexivity.
Qed.

Lemma remove_length (name : string) (i : inode) (l : list (string * inode)) :
  NoDup (map fst l) -> lookup name l = Some i ->
  S (List.length (remove name l)) = List.length l.
Proof.
  induction l as [|[n j] l IH]; simpl; [discriminate|].
  intros Hnd H. inversion Hnd as [|? ? Hnot Hnd']; subst.
  destruct (String.eqb name n) eqn:E; simpl.
  - apply String.eqb_eq in E. subst n.
    apply lookup_None_names in Hnot. now rewrite (remove_absent _ _ Hnot).
  - now rewrite IH.
Qed.

(** The first item of the listing is the earliest record; when its key
    leads back to it, [popitem] hands out its value and removes it. *)
Lemma popitem_first (self : IODict) (fs : filesystem) (it : item)
    (rest : list item) (i : inode) :
  listing fs = it :: rest ->
  lookup (item_path it) (entries fs) = Some i ->
  _encoder self (PStr (item_key it)) = item_path it ->
  valid_name (item_path it) = true ->
  IODict.popitem self fs
  = (Ok (payload i), with_entries fs (remove (item_path it) (entries fs))).
Proof.
  intros Hl Hi Henc Hv.
  unfold IODict.popitem, IODict.next, IODict.__iter__, try_except, bind.
  rewrite iter_items_closed_form, Hl. cbn.
  rewrite Hi. cbn. rewrite <- Henc in Hi, Hv.
  rewrite (pop_present _ _ _ Hv _ _ Hi), Henc. reflexivity.
Qed.

Lemma listing_head_earliest (fs : filesystem) (it : item) (rest : list item) :
  listing fs = it :: rest ->
  forall it', In it' (listing fs) -> item_time it <= item_time it'.
Proof.
  intros Hl it' Hin. pose proof (sorted_ordered item_time (scan_result fs)) as Hs.
  fold (listing fs) in Hs. rewrite Hl in Hs, Hin.
  inversion Hs as [|? ? _ Hall]; subst. destruct Hin as [<-|Hin]; [lia|].
  rewrite Forall_forall in Hall. now apply Hall.
Qed.

(** ** Digests are file names *)

Lemma round_length (A : list Z) (rc : Z) : List.length (Keccak.round A rc) = 25%nat.
Proof.
  unfold Keccak.round.
  set (cs := Keccak.coords). vm_compute in cs. subst cs.
  cbn [map]. reflexivity.
Qed.

Lemma keccak_f_length (A : list Z) : List.length (Keccak.keccak_f A) = 25%nat.
Proof.
  unfold Keccak.keccak_f, Keccak.round_constants. cbn [fold_left].
  apply round_length.
Qed.

Lemma absorb_length (n : nat) (bs A : list Z) :
  List.length A = 25%nat -> List.length (Keccak.absorb n bs A) = 25%nat.
Proof.
  revert bs A. induction n as [|n IH]; intros bs A H; [exact H|].
  cbn [Keccak.absorb]. apply IH, keccak_f_length.
Qed.

Lemma lane_bytes_length (w : Z) : List.length (Keccak.lane_bytes w) = 8%nat.
Proof. reflexivity. Qed.

Lemma lane_bytes_range (w : Z) :
  Forall (fun b => 0 <= b < 256) (Keccak.lane_bytes w).
Proof.
  unfold Keccak.lane_bytes. apply Forall_forall. intros b Hb.
  apply in_map_iff in Hb. destruct Hb as (i & <- & _).
  change 0xFF with (Z.ones 8). rewrite Z.land_ones by lia.
  apply Z.mod_pos_bound. reflexivity.
Qed.

Lemma flat_map_lane_bytes_length (A : list Z) :
  List.length (flat_map Keccak.lane_bytes A) = (8 * List.length A)%nat.
Proof.
  induction A as [|w A IH]; [reflexivity|].
  cbn [flat_map]. rewrite length_app, IH, lane_bytes_length. cbn [List.length]. lia.
Qed.

Lemma digest_length (msg : bytes) :
  List.length (Keccak.sha3_224_digest msg) = 28%nat.
Proof.
  unfold Keccak.sha3_224_digest. rewrite length_firstn, flat_map_lane_bytes_length.
  rewrite absorb_length by reflexivity. reflexivity.
Qed.

Lemma digest_range (msg : bytes) :
  Forall (fun b => 0 <= b < 256) (Keccak.sha3_224_digest msg).
Proof.
  unfold Keccak.sha3_224_digest. apply Forall_forall. intros b Hb.
  match type of Hb with In _ (firstn ?n ?l) =>
    assert (Hb' : In b l)
      by (rewrite <- (firstn_skipn n l); apply in_or_app; now left)
  end.
  apply in_flat_map in Hb'. destruct Hb' as (w & _ & Hb').
  pose proof (lane_bytes_range w) as H. rewrite Forall_forall in H. auto.
Qed.

Lemma hex_char_name_char (d : Z) :
  0 <= d < 16 -> is_name_char (Keccak.hex_char d) = true.
Proof.
  intros H.
  assert (Hd : In d [0; 1; 2; 3; 4; 5; 6; 7; 8; 9; 10; 11; 12; 13; 14; 15])
    by (cbn [In]; lia).
  cbn [In] in Hd.
  repeat (destruct Hd as [<-|Hd]; [reflexivity|]). contradiction.
Qed.

Lemma hex_string_chars (bs : list Z) :
  Forall (fun b => 0 <= b < 256) bs ->
  forallb is_name_char (list_ascii_of_string (fold_right Keccak.hex_of_byte "" bs)) = true.
Proof.
  induction 1 as [|b bs Hb _ IH]; [reflexivity|].
  cbn [fold_right Keccak.hex_of_byte list_ascii_of_string forallb].
  rewrite IH, !hex_char_name_char; [reflexivity| |].
  - change 0xF with (Z.ones 4). rewrite Z.land_ones by lia.
    apply Z.mod_pos_bound. reflexivity.
  - rewrite Z.shiftr_div_pow2 by lia. change (2 ^ 4) with 16.
    split; [apply Z.div_pos; lia | apply Z.div_lt_upper_bound; lia].
Qed.

Lemma hex_string_length (bs : list Z) :
  String.length (fold_right Keccak.hex_of_byte "" bs) = (2 * List.length bs)%nat.
Proof.
  induction bs as [|b bs IH]; [reflexivity|].
  cbn [fold_right Keccak.hex_of_byte String.length List.length]. rewrite IH. lia.
Qed.

Lemma hexdigest_valid (msg : bytes) :
  valid_name (Keccak.sha3_224_hexdigest msg) = true.
Proof.
  unfold valid_name, Keccak.sha3_224_hexdigest.
  pose proof (hex_string_length (Keccak.sha3_224_digest msg)) as Hlen.
  rewrite digest_length in Hlen.
  set (s := fold_right Keccak.hex_of_byte "" (Keccak.sha3_224_digest msg)) in *.
  assert (Hne : forall t, String.length t <> 56%nat -> String.eqb s t = false).
  { intros t Ht. apply String.eqb_neq. intros ->. apply Ht. exact Hlen. }
  rewrite !Hne by (cbn; lia). cbn [negb andb].
  subst s. rewrite hex_string_chars by apply digest_range.
  cbn [andb]. fold (fold_right Keccak.hex_of_byte "" (Keccak.sha3_224_digest msg)).
  rewrite Hlen. reflexivity.
Qed.

(** Every key has a file name on a store that hashes. *)
Lemma sha3_name_valid (pickle_dumps : pyobj -> bytes) (key : pyobj) :
  valid_name (_object_sha3_224 pickle_dumps key) = true.
Proof. destruct key; apply hexdigest_valid. Qed.

(** ** Writing a key *)

Lemma setitem_after (self : IODict) (key value : pyobj) (fs : filesystem) :
  valid_name (_encoder self key) = true ->
  after (IODict.__setitem__ self key value) fs
  = with_entries fs
      (put (_encoder self key)
         (set_inode fs key value (lookup (_encoder self key) (entries fs)))
         (entries fs)).
Proof. intros H. unfold after. now rewrite setitem_closed_form. Qed.

Lemma setitem_outcome (self : IODict) (key value : pyobj) (fs : filesystem) :
  valid_name (_encoder self key) = true ->
  outcome (IODict.__setitem__ self key value) fs
  = if writable fs key then Ok tt else Raise AttributeError.
Proof.
  intros H. unfold outcome, writable. rewrite setitem_closed_form by assumption.
  cbn [fst]. destruct (xattr_supported fs && truthy key && negb (is_str key));
    reflexivity.
Qed.

(** Whatever the outcome of the write, the value can be read back. *)
Lemma setitem_then_getitem (self : IODict) (key value : pyobj) (fs : filesystem) :
  valid_name (_encoder self key) = true ->
  let fs' := after (IODict.__setitem__ self key value) fs in
  IODict.__getitem__ self key fs' = (Ok value, fs').
Proof.
  intros H fs'. subst fs'. rewrite setitem_after by assumption.
  erewrite getitem_present; [|assumption|cbn [entries with_entries]; apply lookup_put_same].
  unfold set_inode.
  destruct (lookup (_encoder self key) (entries fs)), (xattr_supported fs); reflexivity.
Qed.

(** Rewriting a record that carries [user.birthtime] leaves every record
    in its slot. *)
Lemma rewrite_keeps_slots (self : IODict) (key value : pyobj) (fs : filesystem)
    (i : inode) (t : time) :
  xattr_supported fs = true ->
  lookup (_encoder self key) (entries fs) = Some i ->
  birthtime_attr i = Some t ->
  map item_slot (listing (after (IODict.__setitem__ self key value) fs))
  = map item_slot (listing fs).
Proof.
  intros Hx Hi Hb.
  destruct (valid_name (_encoder self key)) eqn:Hv;
    [|unfold after; now rewrite setitem_outside].
  rewrite setitem_after by assumption. set (name := _encoder self key) in *.
  unfold listing.
  rewrite !(sorted_map item_slot item_time fst) by reflexivity. f_equal.
  unfold scan_result, put. rewrite Hi. cbn [entries with_entries].
  rewrite names_replace.
  induction (map fst (entries fs)) as [|m names IH]; [reflexivity|].
  cbn [flat_map]. rewrite !map_app, IH. f_equal.
  unfold item_of. cbn [entries with_entries].
  destruct (String.eqb_spec m name) as [->|Hne].
  - rewrite lookup_replace_same, Hi by congruence.
    unfold item_slot, item_time, item_path, listed_time, set_inode.
    rewrite Hx. cbn. rewrite Hb, Hx. reflexivity.
  - rewrite lookup_replace_other by assumption.
    destruct (lookup m (entries fs)); reflexivity.
Qed.

Lemma rewrite_keeps_birthtime (self : IODict) (key value : pyobj) (fs : filesystem)
    (i : inode) (t : time) :
  xattr_supported fs = true ->
  lookup (_encoder self key) (entries fs) = Some i ->
  birthtime_attr i = Some t ->
  exists i', lookup (_encoder self key)
               (entries (after (IODict.__setitem__ self key value) fs)) = Some i'
             /\ birthtime_attr i' = Some t.
Proof.
  intros Hx Hi Hb.
  destruct (valid_name (_encoder self key)) eqn:Hv.
  - rewrite setitem_after by assumption. cbn [entries with_entries].
    rewrite lookup_put_same. eexists. split; [reflexivity|].
    rewrite Hi. unfold set_inode. rewrite Hx, Hb. reflexivity.
  - unfold after. rewrite setitem_outside by assumption. now exists i.
Qed.

(** The first write stamps the record with the time of the write. *)
Lemma first_write_sets_birthtime (self : IODict) (key value : pyobj) (fs : filesystem) :
  xattr_supported fs = true ->
  valid_name (_encoder self key) = true ->
  lookup (_encoder self key) (entries fs) = None ->
  exists i', lookup (_encoder self key)
               (entries (after (IODict.__setitem__ self key value) fs)) = Some i'
             /\ birthtime_attr i' = Some (clock fs).
Proof.
  intros Hx Hv Hi. rewrite setitem_after by assumption. cbn [entries with_entries].
  rewrite lookup_put_same. eexists. split; [reflexivity|].
  rewrite Hi. unfold set_inode. rewrite Hx. reflexivity.
Qed.




(** ** Stores whose listing leads back to the records *)

(** Without attributes the file name is the key, and [str] leaves text as
    it is. *)
Lemma resolves_plain (fs : filesystem) :
  xattr_supported fs = false ->
  (forall name i, lookup name (entries fs) = Some i -> valid_name name = true) ->
  resolves store_plain fs.
Proof.
  intros Hx Hv name i H. unfold listed_key. rewrite Hx. split; [reflexivity|].
  eapply Hv, H.
Qed.

Lemma resolves_fs_plain_ab : resolves store_plain fs_plain_ab.
Proof.
  apply resolves_plain; [reflexivity|].
  intros name i. vm_compute entries. cbn [lookup].
  destruct (String.eqb_spec name "a") as [->|_]; [reflexivity|].
  destruct (String.eqb_spec name "b") as [->|_]; [reflexivity|discriminate].
Qed.






(** * The claims *)

(** C1: for every key k and every value v, set(k, v) followed by get(k)
    returns v.  The code does not get that far for every key: on a file
    system with extended attributes [__setitem__] raises [AttributeError]
    for each key that is a true value without being text, because
    [_setxattr] calls [key.encode()] on it; [_object_sha3_224] catches the
    same error and hashes the pickle instead.  The payload is on disk by
    then ([setitem_then_getitem]). *)
Theorem setitem_raises_on_non_text_key (self : IODict) (key value : pyobj)
    (fs : filesystem) :
  valid_name (_encoder self key) = true ->
  xattr_supported fs = true -> truthy key = true -> is_str key = false ->
  outcome (IODict.__setitem__ self key value) fs = Raise AttributeError.
Proof.
  intros Hv Hx Ht Hs. rewrite setitem_outcome by assumption.
  unfold writable. now rewrite Hx, Ht, Hs.
Qed.

Lemma setitem_raises_on_non_text_key_witness :
  IODict.__init__ sample_pickle 1 fs_xattr = (Ok store_xattr, fs_xattr)
  /\ valid_name (_encoder store_xattr (PInt 1)) = true
  /\ xattr_supported fs_xattr = true
  /\ truthy (PInt 1) = true
  /\ is_str (PInt 1) = false
  /\ outcome (IODict.__setitem__ store_xattr (PInt 1) (PStr "x")) fs_xattr
     = Raise AttributeError.
Proof.
  split; [reflexivity|]. split; [vm_compute; reflexivity|].
  split; [reflexivity|]. split; [reflexivity|]. split; [reflexivity|].
  apply (setitem_raises_on_non_text_key store_xattr (PInt 1) (PStr "x") fs_xattr);
    vm_compute; reflexivity.
Defined.




(** C3: on a key without a record, pop raises NotFound exactly when no
    default is supplied and returns a supplied default otherwise.  The
    code tests the default for truth instead: a supplied default that is a
    false value (0, False, the empty text) is not returned, [KeyError] is
    raised.  [get] returns any default. *)
Theorem pop_without_record (self : IODict) (key default : pyobj) (fs : filesystem) :
  valid_name (_encoder self key) = true ->
  lookup (_encoder self key) (entries fs) = None ->
  IODict.pop self key default fs
  = ((if truthy default then Ok default else Raise (KeyError key)), fs).
Proof. intros Hv Hnone. now apply pop_absent. Qed.

Lemma pop_without_record_witness :
  valid_name (_encoder store_plain (PStr "missing")) = true
  /\ lookup (_encoder store_plain (PStr "missing")) (entries fs_plain_ab) = None
  /\ IODict.pop store_plain (PStr "missing") (PInt 0) fs_plain_ab
     = (Raise (KeyError (PStr "missing")), fs_plain_ab)
  /\ IODict.get store_plain (PStr "missing") (PInt 0) fs_plain_ab
     = (Ok (PInt 0), fs_plain_ab).
Proof.
  split; [reflexivity|]. split; [reflexivity|]. split.
  - apply (pop_without_record store_plain (PStr "missing") (PInt 0) fs_plain_ab);
      reflexivity.
  - reflexivity.
Defined.

(** C4, as the code has it: on a file system with extended attributes the
    first write of a key stamps [user.birthtime] with the time of the
    write, and writing a key whose record carries the attribute leaves the
    attribute as it is and every record at its place in the iteration
    order. *)
Theorem birthtime_set_once (self : IODict) (key value : pyobj) (fs : filesystem) :
  xattr_supported fs = true ->
  let fs' := after (IODict.__setitem__ self key value) fs in
  (valid_name (_encoder self key) = true ->
   lookup (_encoder self key) (entries fs) = None ->
   exists i', lookup (_encoder self key) (entries fs') = Some i'
              /\ birthtime_attr i' = Some (clock fs))
  /\ (forall i t,
        lookup (_encoder self key) (entries fs) = Some i ->
        birthtime_attr i = Some t ->
        (exists i', lookup (_encoder self key) (entries fs') = Some i'
                    /\ birthtime_attr i' = Some t)
        /\ map item_slot (listing fs') = map item_slot (listing fs)).
Proof.
  intros Hx fs'. split.
  - intros Hv Hnone. now apply first_write_sets_birthtime.
  - intros i t Hi Hb. split.
    + now apply rewrite_keeps_birthtime with (i := i).
    + now apply rewrite_keeps_slots with (i := i) (t := t).
Qed.

Lemma birthtime_set_once_witness :
  xattr_supported fs_xattr_ab = true
  /\ (valid_name (_encoder store_xattr (PStr "c")) = true
      /\ lookup (_encoder store_xattr (PStr "c")) (entries (tick 5 fs_xattr_ab)) = None
      /\ let fs' := after (IODict.__setitem__ store_xattr (PStr "c") (PInt 3))
                      (tick 5 fs_xattr_ab) in
         exists i', lookup (_encoder store_xattr (PStr "c")) (entries fs') = Some i'
                    /\ birthtime_attr i' = Some 1006)
  /\ (exists i, lookup (_encoder store_xattr (PStr "a")) (entries fs_xattr_ab) = Some i
                /\ birthtime_attr i = Some 1000)
  /\ let fs' := after (IODict.__setitem__ store_xattr (PStr "a") (PInt 3))
                  (tick 5 fs_xattr_ab) in
     (exists i', lookup (_encoder store_xattr (PStr "a")) (entries fs') = Some i'
                 /\ birthtime_attr i' = Some 1000)
     /\ map item_slot (listing fs') = map item_slot (listing (tick 5 fs_xattr_ab)).
Proof.
  split; [reflexivity|]. split; [|split].
  - split; [vm_compute; reflexivity|]. split; [vm_compute; reflexivity|].
    cbv zeta.
    refine (proj1 (birthtime_set_once store_xattr (PStr "c") (PInt 3)
                     (tick 5 fs_xattr_ab) eq_refl) _ _);
      vm_compute; reflexivity.
  - eexists. split; vm_compute; reflexivity.
  - cbv zeta.
    refine (proj2 (birthtime_set_once store_xattr (PStr "a") (PInt 3)
                     (tick 5 fs_xattr_ab) eq_refl) _ 1000 _ _);
      vm_compute; reflexivity.
Defined.

(** C4, as stated, fails where the file system has no extended
    attributes: no birth time is stored, the order falls back on
    [st_ctime], and writing [a] again moves it behind [b]. *)
Lemma rewrite_moves_key_without_attributes :
  let fs' := after (IODict.__setitem__ store_plain (PStr "a") (PInt 3))
               (tick 1 fs_plain_ab) in
  lookup (_encoder store_plain (PStr "a")) (entries fs_plain_ab) <> None
  /\ outcome (IODict.keys store_plain) (tick 1 fs_plain_ab) = Ok [PStr "a"; PStr "b"]
  /\ outcome (IODict.keys store_plain) fs' = Ok [PStr "b"; PStr "a"]
  /\ outcome (IODict.keys store_plain) fs'
     <> outcome (IODict.keys store_plain) (tick 1 fs_plain_ab).
Proof.
  cbv zeta. repeat split; vm_compute; [discriminate|reflexivity..|discriminate].
Qed.



(** C6: [get] on a key without a record fails with NotFound, so does
    [get] after a [delete] that succeeded, and [delete] fails with
    NotFound when there is no record for the key. *)
Theorem get_and_delete_without_record (self : IODict) (key : pyobj) (fs : filesystem) :
  valid_name (_encoder self key) = true ->
  (lookup (_encoder self key) (entries fs) = None ->
   IODict.__getitem__ self key fs = (Raise (KeyError key), fs)
   /\ IODict.__delitem__ self key fs = (Raise (KeyError key), fs))
  /\ (outcome (IODict.__delitem__ self key) fs = Ok tt ->
      let fs' := after (IODict.__delitem__ self key) fs in
      IODict.__getitem__ self key fs' = (Raise (KeyError key), fs')).
Proof.
  intros Hv. split.
  - intros Hnone. split; [now apply getitem_absent | now apply delitem_absent].
  - intros Hok fs'. subst fs'. unfold outcome, after in *.
    destruct (lookup (_encoder self key) (entries fs)) as [i|] eqn:H.
    + rewrite (delitem_present _ _ _ Hv _ H). cbn [snd].
      apply getitem_absent; [assumption|].
      cbn [entries with_entries]. apply lookup_remove_same.
    + rewrite (delitem_absent _ _ _ Hv H) in Hok. discriminate.
Qed.

Lemma get_and_delete_without_record_witness :
  (valid_name (_encoder store_xattr (PStr "c")) = true
   /\ lookup (_encoder store_xattr (PStr "c")) (entries fs_xattr_ab) = None
   /\ IODict.__getitem__ store_xattr (PStr "c") fs_xattr_ab
      = (Raise (KeyError (PStr "c")), fs_xattr_ab)
   /\ IODict.__delitem__ store_xattr (PStr "c") fs_xattr_ab
      = (Raise (KeyError (PStr "c")), fs_xattr_ab))
  /\ (valid_name (_encoder store_xattr (PStr "a")) = true
      /\ outcome (IODict.__delitem__ store_xattr (PStr "a")) fs_xattr_ab = Ok tt
      /\ let fs' := after (IODict.__delitem__ store_xattr (PStr "a")) fs_xattr_ab in
         IODict.__getitem__ store_xattr (PStr "a") fs'
         = (Raise (KeyError (PStr "a")), fs')).
Proof.
  split.
  - split; [vm_compute; reflexivity|]. split; [vm_compute; reflexivity|].
    apply (proj1 (get_and_delete_without_record store_xattr (PStr "c") fs_xattr_ab
                    (sha3_name_valid _ _)));
      vm_compute; reflexivity.
  - split; [vm_compute; reflexivity|]. split; [vm_compute; reflexivity|].
    apply (proj2 (get_and_delete_without_record store_xattr (PStr "a") fs_xattr_ab
                    (sha3_name_valid _ _)));
      vm_compute; reflexivity.
Defined.

(** C7: [popitem] on a store without records fails with EmptyStore; on a
    store with records it returns the value of the earliest record and
    removes it.  The code misses the record written under the empty text
    on a file system with extended attributes: [_setxattr] skips
    [user.key] because the key is a false value, the scan then lists the
    record under its file name, and [popitem] looks that name up as a key:
    [KeyError], and the record stays.  ([popitem_empty] and
    [popitem_first] cover the stores whose listing leads back to the
    records.) *)
Theorem popitem_misses_empty_key_record :
  IODict.__setitem__ store_xattr (PStr "") (PInt 1) fs_xattr
  = (Ok tt, fs_xattr_empty_key)
  /\ IODict.__len__ store_xattr fs_xattr_empty_key = (Ok 1, fs_xattr_empty_key)
  /\ IODict.keys store_xattr fs_xattr_empty_key
     = (Ok [PStr "6b4e03423667dbb73b6e15454f0eb1abd4597f9a1b078e3f5b5a6bc7"],
        fs_xattr_empty_key)
  /\ IODict.popitem store_xattr fs_xattr_empty_key
     = (Raise (KeyError
                 (PStr "6b4e03423667dbb73b6e15454f0eb1abd4597f9a1b078e3f5b5a6bc7")),
        fs_xattr_empty_key).
Proof. repeat split; vm_compute; reflexivity. Qed.

(** Where the listing leads back to the records, [popitem] takes the
    earliest one: its value is returned, the record is gone and the store
    is one record smaller. *)
Lemma popitem_takes_earliest (self : IODict) (fs : filesystem) :
  resolves self fs -> directory_ok fs -> entries fs <> [] ->
  exists it i,
    lookup (item_path it) (entries fs) = Some i
    /\ (forall it', In it' (listing fs) -> item_time it <= item_time it')
    /\ let fs' := with_entries fs (remove (item_path it) (entries fs)) in
       IODict.popitem self fs = (Ok (payload i), fs')
       /\ lookup (item_path it) (entries fs') = None
       /\ IODict.__len__ self fs = (Ok (Z.of_nat (List.length (entries fs))), fs)
       /\ IODict.__len__ self fs'
          = (Ok (Z.of_nat (List.length (entries fs)) - 1), fs').
Proof.
  intros Hres Hok Hne.
  assert (Hex : exists it rest, listing fs = it :: rest).
  { destruct (listing fs) eqn:Hl; [apply listing_nil in Hl; contradiction|eauto]. }
  destruct Hex as (it & rest & Hl).
  assert (Hin : In it (listing fs)) by (rewrite Hl; now left).
  apply listing_In in Hin. destruct Hin as (i & Hi & Heq).
  destruct (Hres _ _ Hi) as [Henc Hv].
  exists it, i. split; [exact Hi|]. split; [now apply listing_head_earliest with rest|].
  cbv zeta. split; [|split; [|split]].
  - apply popitem_first with rest; try assumption.
    rewrite Heq at 1. exact Henc.
  - cbn [entries with_entries]. apply lookup_remove_same.
  - apply len_closed_form.
  - rewrite len_closed_form. cbn [entries with_entries].
    pose proof (remove_length _ _ _ Hok Hi) as Hlen. do 2 f_equal. lia.
Qed.

(** C8: for every key and default, [setdefault] writes the default over
    whatever the key held and returns it.  The write is unconditional,
    but the call shares the defect of [__setitem__] reported for C1: on a
    file system with extended attributes a key that is a true value
    without being text makes it raise [AttributeError] where the default
    should come back; the record holds the default by then. *)
Theorem setdefault_raises_on_non_text_key (self : IODict) (key default : pyobj)
    (fs : filesystem) :
  valid_name (_encoder self key) = true ->
  xattr_supported fs = true -> truthy key = true -> is_str key = false ->
  let fs' := after (IODict.setdefault self key default) fs in
  outcome (IODict.setdefault self key default) fs = Raise AttributeError
  /\ IODict.__getitem__ self key fs' = (Ok default, fs').
Proof.
  intros Hv Hx Ht Hs fs'.
  assert (E : IODict.setdefault self key default fs
              = (Raise AttributeError,
                 after (IODict.__setitem__ self key default) fs)).
  { unfold IODict.setdefault, bind, after.
    pose proof (setitem_outcome self key default fs Hv) as Ho.
    unfold outcome, writable in Ho. rewrite Hx, Ht, Hs in Ho. cbn in Ho.
    destruct (IODict.__setitem__ self key default fs) as [r fs1].
    cbn in Ho. subst r. reflexivity. }
  subst fs'. unfold outcome, after at 1 2. rewrite E. cbn [fst snd].
  split; [reflexivity|]. now apply setitem_then_getitem.
Qed.

Lemma setdefault_raises_on_non_text_key_witness :
  valid_name (_encoder store_xattr (PInt 1)) = true
  /\ xattr_supported fs_xattr = true
  /\ truthy (PInt 1) = true
  /\ is_str (PInt 1) = false
  /\ outcome (IODict.setdefault store_xattr (PInt 1) (PStr "x")) fs_xattr
     = Raise AttributeError.
Proof.
  split; [vm_compute; reflexivity|].
  split; [reflexivity|]. split; [reflexivity|]. split; [reflexivity|].
  apply (setdefault_raises_on_non_text_key store_xattr (PInt 1) (PStr "x") fs_xattr);
    vm_compute; reflexivity.
Defined.

(** On the keys [__setitem__] accepts, [setdefault] overwrites and
    returns the default. *)
Lemma setdefault_overwrites (self : IODict) (key default : pyobj) (fs : filesystem) :
  valid_name (_encoder self key) = true ->
  writable fs key = true ->
  let fs' := after (IODict.setdefault self key default) fs in
  IODict.setdefault self key default fs = (Ok default, fs')
  /\ IODict.__getitem__ self key fs' = (Ok default, fs').
Proof.
  intros Hv Hw fs'.
  assert (E : IODict.setdefault self key default fs
              = (Ok default, after (IODict.__setitem__ self key default) fs)).
  { unfold IODict.setdefault, bind, after.
    pose proof (setitem_outcome self key default fs Hv) as Ho.
    unfold outcome in Ho. rewrite Hw in Ho.
    destruct (IODict.__setitem__ self key default fs) as [r fs1].
    cbn in Ho. subst r. reflexivity. }
  assert (Ea : after (IODict.setdefault self key default) fs
               = after (IODict.__setitem__ self key default) fs)
    by (unfold after at 1; now rewrite E).
  subst fs'. rewrite Ea, E.
  split; [reflexivity|]. now apply setitem_then_getitem.
Qed.

(** C9: [copy] returns the store object itself, not a snapshot: the
    result is the same object, nothing is read or written, and whatever is
    done through the returned object is done through the original. *)
Theorem copy_is_identity (self : IODict) (fs : filesystem) :
  IODict.copy self fs = (Ok self, fs)
  /\ (forall c fs', IODict.copy self fs = (Ok c, fs') ->
        identity c = identity self /\ fs' = fs)
  /\ forall (A : Type) (op : IODict -> M A),
       bind (IODict.copy self) op fs = op self fs.
Proof.
  split; [reflexivity|]. split.
  - intros c fs' [= <- <-]. split; reflexivity.
  - intros A op. reflexivity.
Qed.

(** A second store opened on the same directory is another object. *)
Lemma init_makes_another_object (pickle_dumps : pyobj -> bytes)
    (address : nat) (self : IODict) (fs : filesystem) :
  address <> identity self ->
  exists other, IODict.__init__ pickle_dumps address fs = (Ok other, fs)
                /\ other <> self.
Proof.
  intros Hne. unfold IODict.__init__.
  destruct (xattr_supported fs); eexists; (split; [reflexivity|]);
    intros <-; now apply Hne.
Qed.

(** C10: the method [get] does not raise on a key without a record: it
    returns the default ([None] when left out); on a key with a record it
    returns the stored value whatever the default. *)
Theorem get_with_default (self : IODict) (key default : pyobj) (fs : filesystem) :
  valid_name (_encoder self key) = true ->
  (lookup (_encoder self key) (entries fs) = None ->
   IODict.get self key default fs = (Ok default, fs))
  /\ (forall i, lookup (_encoder self key) (entries fs) = Some i ->
        IODict.get self key default fs = (Ok (payload i), fs))
  /\ (forall value,
        let fs' := after (IODict.__setitem__ self key value) fs in
        IODict.get self key default fs' = (Ok value, fs')).
Proof.
  intros Hv. split; [|split].
  - intros Hnone. now apply get_absent.
  - intros i Hi. now apply get_present.
  - intros value fs'. unfold IODict.get, try_except. subst fs'.
    now rewrite setitem_then_getitem.
Qed.

Lemma get_with_default_witness :
  valid_name (_encoder store_xattr (PStr "c")) = true
  /\ lookup (_encoder store_xattr (PStr "c")) (entries fs_xattr_ab) = None
  /\ IODict.get store_xattr (PStr "c") PNone fs_xattr_ab = (Ok PNone, fs_xattr_ab)
  /\ IODict.get store_xattr (PStr "c") (PInt 0) fs_xattr_ab = (Ok (PInt 0), fs_xattr_ab)
  /\ IODict.get store_xattr (PStr "b") (PInt 0) fs_xattr_ab = (Ok (PInt 2), fs_xattr_ab).
Proof.
  split; [vm_compute; reflexivity|]. split; [vm_compute; reflexivity|].
  split; [|split].
  - apply (proj1 (get_with_default store_xattr (PStr "c") PNone fs_xattr_ab
                    (sha3_name_valid _ _))).
    vm_compute; reflexivity.
  - apply (proj1 (get_with_default store_xattr (PStr "c") (PInt 0) fs_xattr_ab
                    (sha3_name_valid _ _))).
    vm_compute; reflexivity.
  - refine (proj1 (proj2 (get_with_default store_xattr (PStr "b") (PInt 0)
                            fs_xattr_ab (sha3_name_valid _ _)))
              (mk_inode (PInt 2) (Some 1001) (Some "b") 1001 1001) _).
    vm_compute; reflexivity.
Defined.

(** * More of the store *)

(** ** Size *)

Lemma replace_length (name : string) (i : inode) (l : list (string * inode)) :
  List.length (replace name i l) = List.length l.
Proof. rewrite <- (length_map fst), names_replace. apply length_map. Qed.

Lemma put_length (name : string) (i : inode) (l : list (string * inode)) :
  List.length (put name i l)
  = (List.length l + match lookup name l with Some _ => 0 | None => 1 end)%nat.
Proof.
  unfold put. destruct (lookup name l).
  - rewrite replace_length. lia.
  - rewrite length_app. reflexivity.
Qed.

Lemma with_entries_same (fs : filesystem) : with_entries fs (entries fs) = fs.
Proof. destruct fs; reflexivity. Qed.

Lemma remove_app_fresh (name : string) (i : inode) (l : list (string * inode)) :
  lookup name l = None -> remove name (l ++ [(name, i)]) = l.
Proof.
  intros H. unfold remove. rewrite filter_app. cbn [filter fst].
  rewrite String.eqb_refl. cbn [negb]. rewrite app_nil_r.
  now apply remove_absent.
Qed.

(** X1: [len(d)] is the number of keys a full iteration yields, which is
    the number of files in the directory. *)
Theorem len_counts_the_keys (self : IODict) (fs : filesystem) :
  exists ks,
    IODict.keys self fs = (Ok ks, fs)
    /\ IODict.__len__ self fs = (Ok (Z.of_nat (List.length ks)), fs)
    /\ List.length ks = List.length (entries fs).
Proof.
  exists (map (fun it => PStr (item_key it)) (listing fs)).
  rewrite keys_closed_form, len_closed_form, length_map, listing_length.
  repeat split.
Qed.

(** X2: writing a key adds one record when the key had none and leaves
    the number of records as it is when the key had one; this holds also
    when the write ends in [AttributeError]. *)
Theorem len_after_setitem (self : IODict) (key value : pyobj) (fs : filesystem) :
  valid_name (_encoder self key) = true ->
  let fs' := after (IODict.__setitem__ self key value) fs in
  IODict.__len__ self fs'
  = (Ok (Z.of_nat (List.length (entries fs))
         + match lookup (_encoder self key) (entries fs) with
           | Some _ => 0
           | None => 1
           end), fs').
Proof.
  intros Hv fs'. subst fs'. rewrite len_closed_form, setitem_after by assumption.
  cbn [entries with_entries]. rewrite put_length.
  destruct (lookup (_encoder self key) (entries fs)); do 2 f_equal; lia.
Qed.

Lemma len_after_setitem_witness :
  valid_name (_encoder store_xattr (PStr "c")) = true
  /\ IODict.__len__ store_xattr fs_xattr_ab = (Ok 2, fs_xattr_ab)
  /\ (let fs' := after (IODict.__setitem__ store_xattr (PStr "c") (PInt 3)) fs_xattr_ab in
      IODict.__len__ store_xattr fs' = (Ok 3, fs'))
  /\ (let fs' := after (IODict.__setitem__ store_xattr (PStr "a") (PInt 3)) fs_xattr_ab in
      IODict.__len__ store_xattr fs' = (Ok 2, fs')).
Proof.
  split; [apply sha3_name_valid|]. split; [vm_compute; reflexivity|]. split.
  - exact (len_after_setitem store_xattr (PStr "c") (PInt 3) fs_xattr_ab
             (sha3_name_valid _ _)).
  - exact (len_after_setitem store_xattr (PStr "a") (PInt 3) fs_xattr_ab
             (sha3_name_valid _ _)).
Defined.

(** ** Writing and deleting leave the other keys alone *)






(** X5: writing a key that had no record and deleting it again gives back
    the directory as it was. *)
Theorem setitem_then_delitem_restores (self : IODict) (key value : pyobj)
    (fs : filesystem) :
  valid_name (_encoder self key) = true ->
  lookup (_encoder self key) (entries fs) = None ->
  IODict.__delitem__ self key (after (IODict.__setitem__ self key value) fs)
  = (Ok tt, fs).
Proof.
  intros Hv Hnone. rewrite setitem_after by assumption.
  erewrite delitem_present;
    [|assumption|cbn [entries with_entries]; apply lookup_put_same].
  cbn [entries with_entries]. unfold put. rewrite Hnone.
  rewrite remove_app_fresh by assumption.
  destruct fs; reflexivity.
Qed.

Lemma setitem_then_delitem_restores_witness :
  valid_name (_encoder store_plain (PStr "c")) = true
  /\ lookup (_encoder store_plain (PStr "c")) (entries fs_plain_ab) = None
  /\ IODict.__delitem__ store_plain (PStr "c")
       (after (IODict.__setitem__ store_plain (PStr "c") (PInt 3)) fs_plain_ab)
     = (Ok tt, fs_plain_ab).
Proof.
  split; [reflexivity|]. split; [reflexivity|].
  apply (setitem_then_delitem_restores store_plain (PStr "c") (PInt 3) fs_plain_ab);
    reflexivity.
Defined.

(** ** [clear] and [pop] *)

(** X6: on a store whose listing leads back to the records [clear] returns
    normally and leaves no record: the size is 0 and every key raises
    [KeyError]. *)
Theorem clear_empties_the_store (self : IODict) (fs : filesystem) :
  resolves self fs ->
  let fs' := after (IODict.clear self) fs in
  IODict.clear self fs = (Ok tt, fs')
  /\ IODict.__len__ self fs' = (Ok 0, fs')
  /\ IODict.keys self fs' = (Ok [], fs')
  /\ forall key, valid_name (_encoder self key) = true ->
       IODict.__getitem__ self key fs' = (Raise (KeyError key), fs').
Proof.
  intros Hres fs'. subst fs'. unfold after.
  rewrite (clear_closed_form _ _ Hres). cbn [snd].
  split; [reflexivity|]. split; [now rewrite len_closed_form|].
  split; [now rewrite keys_closed_form|].
  intros key Hv. now apply getitem_absent.
Qed.

Lemma clear_empties_the_store_witness :
  resolves store_plain fs_plain_ab
  /\ IODict.__len__ store_plain fs_plain_ab = (Ok 2, fs_plain_ab)
  /\ let fs' := after (IODict.clear store_plain) fs_plain_ab in
     IODict.clear store_plain fs_plain_ab = (Ok tt, fs')
     /\ IODict.__len__ store_plain fs' = (Ok 0, fs').
Proof.
  split; [exact resolves_fs_plain_ab|]. split; [vm_compute; reflexivity|].
  cbv zeta.
  destruct (clear_empties_the_store store_plain fs_plain_ab resolves_fs_plain_ab)
    as (Hc & Hl & _).
  split; [exact Hc | exact Hl].
Defined.

(** X7: [pop] on a key that has a record returns the stored value,
    whatever the default, and ends in the state [del d[key]] ends in;
    afterwards the key raises [KeyError]. *)
Theorem pop_takes_the_record (self : IODict) (key default : pyobj)
    (fs : filesystem) (i : inode) :
  valid_name (_encoder self key) = true ->
  lookup (_encoder self key) (entries fs) = Some i ->
  let fs' := after (IODict.__delitem__ self key) fs in
  IODict.__getitem__ self key fs = (Ok (payload i), fs)
  /\ IODict.pop self key default fs = (Ok (payload i), fs')
  /\ IODict.__getitem__ self key fs' = (Raise (KeyError key), fs')
  /\ IODict.pop self key PNone fs' = (Raise (KeyError key), fs').
Proof.
  intros Hv Hi fs'. subst fs'. unfold after.
  rewrite (delitem_present _ _ _ Hv _ Hi). cbn [snd].
  assert (Hgone : lookup (_encoder self key)
                    (entries (with_entries fs (remove (_encoder self key) (entries fs))))
                  = None)
    by (cbn [entries with_entries]; apply lookup_remove_same).
  split; [now apply getitem_present|]. split; [now apply pop_present|].
  split; [now apply getitem_absent|].
  rewrite (pop_absent _ _ _ Hv PNone Hgone). reflexivity.
Qed.

Lemma pop_takes_the_record_witness :
  valid_name (_encoder store_plain (PStr "a")) = true
  /\ (exists i, lookup (_encoder store_plain (PStr "a")) (entries fs_plain_ab) = Some i)
  /\ outcome (IODict.pop store_plain (PStr "a") (PInt 7)) fs_plain_ab = Ok (PInt 1).
Proof.
  split; [reflexivity|]. split; [eexists; vm_compute; reflexivity|].
  unfold outcome.
  rewrite (proj1 (proj2 (pop_takes_the_record store_plain (PStr "a") (PInt 7)
                           fs_plain_ab (mk_inode (PInt 1) None None 1000 1000)
                           eq_refl eq_refl))).
  reflexivity.
Defined.

(** ** Reading changes nothing *)

Lemma for_items_keeps_state {A} (body : A -> pyobj -> M A) (items : list item)
    (acc : A) (fs : filesystem) :
  (forall a x fs0, after (body a x) fs0 = fs0) ->
  after (IODict.for_items items body acc) fs = fs.
Proof.
  intros Hbody. revert acc. induction items as [|it items IH]; intros acc;
    [reflexivity|].
  unfold after in *. cbn [IODict.for_items]. unfold bind at 1, os_path_exists at 1.
  destruct (lookup (item_path it) (entries fs)); cbn [negb]; [|apply IH].
  unfold bind. specialize (Hbody acc (PStr (item_key it)) fs).
  destruct (body acc (PStr (item_key it)) fs) as [[a|e] fs1]; cbn [snd] in Hbody;
    subst fs1; [apply IH | reflexivity].
Qed.

Lemma getitem_keeps_state (self : IODict) (key : pyobj) (fs : filesystem) :
  after (IODict.__getitem__ self key) fs = fs.
Proof.
  unfold after. run. destruct (valid_name (_encoder self key)); [|reflexivity].
  destruct (lookup (_encoder self key) (entries fs)); reflexivity.
Qed.

(** X8: looking up, counting and iterating never change the directory,
    whether they return or raise. *)
Theorem reading_keeps_the_directory (self : IODict) (key default : pyobj)
    (index : option Z) (fs : filesystem) :
  after (IODict.__getitem__ self key) fs = fs
  /\ after (IODict.get self key default) fs = fs
  /\ after (IODict.__len__ self) fs = fs
  /\ after (IODict.keys self) fs = fs
  /\ after (IODict.values self) fs = fs
  /\ after (IODict.items self) fs = fs
  /\ after (IODict.next self (IODict.__iter__ self index)) fs = fs.
Proof.
  assert (Hbody : forall A (f : A -> pyobj -> pyobj -> A) a x fs0,
             after (bind (IODict.__getitem__ self x) (fun v => ret (f a x v))) fs0 = fs0).
  { intros A f a x fs0. pose proof (getitem_keeps_state self x fs0) as H.
    unfold after, bind in *.
    destruct (IODict.__getitem__ self x fs0) as [[v|e] fs1]; exact H. }
  split; [apply getitem_keeps_state|]. split.
  - pose proof (getitem_keeps_state self key fs) as H.
    unfold after, IODict.get, try_except in *.
    destruct (IODict.__getitem__ self key fs) as [[v|e] fs1]; cbn [snd] in *;
      [exact H|]. destruct (is_KeyError e); exact H.
  - split; [unfold after; now rewrite len_closed_form|].
    split; [unfold after; now rewrite keys_closed_form|].
    split; [|split].
    + unfold after, IODict.values, IODict.for_iter, bind.
      rewrite iter_items_closed_form.
      apply (for_items_keeps_state _ (listing fs) [] fs).
      intros a x fs0. apply (Hbody _ (fun acc _ v => acc ++ [v])).
    + unfold after, IODict.items, IODict.for_iter, bind.
      rewrite iter_items_closed_form.
      apply (for_items_keeps_state _ (listing fs) [] fs).
      intros a x fs0. apply (Hbody _ (fun acc k v => acc ++ [(k, v)])).
    + unfold after, IODict.next, IODict.__iter__, bind.
      rewrite iter_items_closed_form.
      destruct (listing fs) as [|it rest]; [reflexivity|].
      destruct index as [z|].
      * unfold py_index.
        destruct ((0 <=? _) && _); [|reflexivity].
        destruct (nth_error _ _) as [x|]; [|reflexivity].
        unfold ret, os_path_exists.
        destruct (lookup (item_path x) (entries fs)); reflexivity.
      * generalize (it :: rest). intros l.
        induction l as [|x l IH]; [reflexivity|].
        cbn [IODict.resume]. unfold bind, os_path_exists.
        destruct (lookup (item_path x) (entries fs)); cbn [negb];
          [reflexivity | exact IH].
Qed.

(** ** The helpers *)

(** X9: on a file system without extended attributes [_setxattr] changes
    nothing and never raises, whatever the key, so [__setitem__] returns
    normally for every key that has a file name. *)
Theorem setxattr_without_attributes (fs : filesystem) :
  xattr_supported fs = false ->
  (forall path key, _setxattr path key fs = (Ok tt, fs))
  /\ (forall self key value,
        valid_name (_encoder self key) = true ->
        outcome (IODict.__setitem__ self key value) fs = Ok tt).
Proof.
  intros Hx. split.
  - intros path key. run. destruct (lookup path (entries fs)) eqn:H; cbn.
    + rewrite Hx. cbn. rewrite H, Hx. reflexivity.
    + rewrite H. reflexivity.
  - intros self key value Hv. rewrite setitem_outcome by assumption.
    unfold writable. now rewrite Hx.
Qed.

Lemma setxattr_without_attributes_witness :
  xattr_supported fs_plain_ab = false
  /\ _setxattr "a" (PInt 1) fs_plain_ab = (Ok tt, fs_plain_ab)
  /\ outcome (IODict.__setitem__ store_plain (PInt 1) (PStr "x")) fs_plain_ab = Ok tt.
Proof.
  split; [reflexivity|]. split.
  - apply (proj1 (setxattr_without_attributes fs_plain_ab eq_refl)).
  - apply (proj2 (setxattr_without_attributes fs_plain_ab eq_refl)). reflexivity.
Defined.



(** X11: for a path that is not in the directory both [_get_item_key] and
    [_get_create_time] raise [FileNotFoundError], with or without extended
    attributes; this is what lets the scan pass over a vanished entry. *)
Theorem helpers_on_missing_file (path : string) (fs : filesystem) :
  lookup path (entries fs) = None ->
  _get_item_key path fs = (Raise (FileNotFoundError path), fs)
  /\ _get_create_time path fs = (Raise (FileNotFoundError path), fs).
Proof. intros H. split; run; rewrite H; cbn; rewrite ?H; reflexivity. Qed.

Lemma helpers_on_missing_file_witness :
  lookup "gone" (entries fs_xattr_ab) = None
  /\ _get_item_key "gone" fs_xattr_ab = (Raise (FileNotFoundError "gone"), fs_xattr_ab)
  /\ _get_create_time "gone" fs_xattr_ab
     = (Raise (FileNotFoundError "gone"), fs_xattr_ab).
Proof.
  split; [reflexivity|].
  apply (helpers_on_missing_file "gone" fs_xattr_ab). reflexivity.
Defined.

(** ** File names of a store that hashes *)

Lemma hex_char_hex_digit (d : Z) :
  0 <= d < 16 -> is_hex_digit (Keccak.hex_char d) = true.
Proof.
  intros H.
  assert (Hd : In d [0; 1; 2; 3; 4; 5; 6; 7; 8; 9; 10; 11; 12; 13; 14; 15])
    by (cbn [In]; lia).
  cbn [In] in Hd.
  repeat (destruct Hd as [<-|Hd]; [reflexivity|]). contradiction.
Qed.

Lemma hex_string_hex_digits (bs : list Z) :
  Forall (fun b => 0 <= b < 256) bs ->
  forallb is_hex_digit (list_ascii_of_string (fold_right Keccak.hex_of_byte "" bs)) = true.
Proof.
  induction 1 as [|b bs Hb _ IH]; [reflexivity|].
  cbn [fold_right Keccak.hex_of_byte list_ascii_of_string forallb].
  rewrite IH, !hex_char_hex_digit; [reflexivity| |].
  - change 0xF with (Z.ones 4). rewrite Z.land_ones by lia.
    apply Z.mod_pos_bound. reflexivity.
  - rewrite Z.shiftr_div_pow2 by lia. change (2 ^ 4) with 16.
    split; [apply Z.div_pos; lia | apply Z.div_lt_upper_bound; lia].
Qed.

(** X12: the file name [_object_sha3_224] gives to a key, text or not, is
    56 lower-case hexadecimal digits, hence one path component: on a store
    that hashes no key leads outside the directory. *)
Theorem sha3_names_are_hex (pickle_dumps : pyobj -> bytes) (key : pyobj) :
  let name := _object_sha3_224 pickle_dumps key in
  String.length name = 56%nat
  /\ forallb is_hex_digit (list_ascii_of_string name) = true
  /\ valid_name name = true.
Proof.
  cbv zeta. split; [|split; [|apply sha3_name_valid]].
  - destruct key; cbn [_object_sha3_224]; unfold Keccak.sha3_224_hexdigest;
      now rewrite hex_string_length, digest_length.
  - destruct key; cbn [_object_sha3_224]; unfold Keccak.sha3_224_hexdigest;
      apply hex_string_hex_digits, digest_range.
Qed.

(** ** [values], [items] and a store popped empty *)

Lemma for_items_pure_in {A} (f : A -> item -> A) (body : A -> pyobj -> M A)
    (fs : filesystem) (items : list item) (acc : A) :
  (forall it, In it items ->
     lookup (item_path it) (entries fs) <> None
     /\ forall a, body a (PStr (item_key it)) fs = (Ok (f a it), fs)) ->
  IODict.for_items items body acc fs = (Ok (fold_left f items acc), fs).
Proof.
  revert acc. induction items as [|it items IH]; intros acc Hall; [reflexivity|].
  cbn [IODict.for_items fold_left]. unfold bind at 1, os_path_exists at 1.
  destruct (Hall it (or_introl eq_refl)) as [Hp Hb].
  destruct (lookup (item_path it) (entries fs)); [|congruence].
  cbn [negb]. unfold bind. rewrite Hb. apply IH.
  intros it' Hin. apply Hall. now right.
Qed.

Lemma fold_left_snoc {A B} (g : A -> B) (l : list A) (acc : list B) :
  fold_left (fun a x => a ++ [g x]) l acc = acc ++ map g l.
Proof.
  revert acc. induction l as [|x l IH]; intros acc; cbn [fold_left map].
  - now rewrite app_nil_r.
  - rewrite IH, <- app_assoc. reflexivity.
Qed.

Lemma getitem_listed (self : IODict) (fs : filesystem) (it : item) :
  resolves self fs -> In it (listing fs) ->
  lookup (item_path it) (entries fs) <> None
  /\ IODict.__getitem__ self (PStr (item_key it)) fs = (Ok (item_value fs it), fs).
Proof.
  intros Hres Hin. apply listing_In in Hin. destruct Hin as (i & Hi & Heq).
  destruct (Hres _ _ Hi) as [Henc Hv].
  assert (Hk : item_key it = listed_key fs (item_path it) i)
    by (rewrite Heq at 1; reflexivity).
  split; [congruence|]. unfold item_value. rewrite Hi, Hk.
  apply getitem_present; rewrite Henc; assumption.
Qed.

Lemma values_closed_form (self : IODict) (fs : filesystem) :
  resolves self fs ->
  IODict.values self fs = (Ok (map (item_value fs) (listing fs)), fs).
Proof.
  intros Hres. unfold IODict.values, IODict.for_iter, bind.
  rewrite iter_items_closed_form.
  rewrite (for_items_pure_in (fun acc it => acc ++ [item_value fs it])).
  - now rewrite fold_left_snoc.
  - intros it Hin. destruct (getitem_listed _ _ _ Hres Hin) as [Hp Hg].
    split; [exact Hp|]. intros a. unfold bind. now rewrite Hg.
Qed.

(** X13: where the listing leads back to the records, [values()] and
    [items()] run to their end without an exception; they yield as many
    elements as [keys()], in the same order: the keys are the first
    components of the items, the values the second ones, and each value is
    what the key reads. *)
Theorem items_pair_keys_with_values (self : IODict) (fs : filesystem) :
  resolves self fs ->
  exists kvs,
    IODict.items self fs = (Ok kvs, fs)
    /\ IODict.keys self fs = (Ok (map fst kvs), fs)
    /\ IODict.values self fs = (Ok (map snd kvs), fs)
    /\ forall k v, In (k, v) kvs -> IODict.__getitem__ self k fs = (Ok v, fs).
Proof.
  intros Hres.
  exists (map (fun it => (PStr (item_key it), item_value fs it)) (listing fs)).
  split; [|split; [|split]].
  - unfold IODict.items, IODict.for_iter, bind. rewrite iter_items_closed_form.
    rewrite (for_items_pure_in
               (fun acc it => acc ++ [(PStr (item_key it), item_value fs it)])).
    + now rewrite fold_left_snoc.
    + intros it Hin. destruct (getitem_listed _ _ _ Hres Hin) as [Hp Hg].
      split; [exact Hp|]. intros a. unfold bind. now rewrite Hg.
  - rewrite keys_closed_form, map_map. reflexivity.
  - rewrite values_closed_form by assumption. now rewrite map_map.
  - intros k v Hin. apply in_map_iff in Hin. destruct Hin as (it & [= <- <-] & Hin).
    apply (getitem_listed _ _ _ Hres Hin).
Qed.

Lemma items_pair_keys_with_values_witness :
  resolves store_plain fs_plain_ab
  /\ IODict.items store_plain fs_plain_ab
     = (Ok [(PStr "a", PInt 1); (PStr "b", PInt 2)], fs_plain_ab)
  /\ exists kvs, IODict.items store_plain fs_plain_ab = (Ok kvs, fs_plain_ab)
                 /\ IODict.values store_plain fs_plain_ab = (Ok (map snd kvs), fs_plain_ab).
Proof.
  split; [exact resolves_fs_plain_ab|]. split; [vm_compute; reflexivity|].
  destruct (items_pair_keys_with_values store_plain fs_plain_ab resolves_fs_plain_ab)
    as (kvs & Hi & _ & Hv & _).
  exists kvs. split; assumption.
Defined.

(** Sorting and dropping elements can be done in either order. *)
Lemma insert_sorted_filter_out {A} (key : A -> Z) (p : A -> bool) (x : A)
    (l : list A) :
  p x = false -> filter p (insert_sorted key x l) = filter p l.
Proof.
  intros Hp. induction l as [|y l IH]; cbn [insert_sorted filter].
  - now rewrite Hp.
  - destruct (key x <=? key y); cbn [filter]; [now rewrite Hp|].
    now rewrite IH.
Qed.

Lemma insert_sorted_filter_in {A} (key : A -> Z) (p : A -> bool) (x : A)
    (l : list A) :
  StronglySorted (key_le key) l -> p x = true ->
  filter p (insert_sorted key x l) = insert_sorted key x (filter p l).
Proof.
  intros Hs Hp. induction Hs as [|y l Hs IH Hall]; cbn [insert_sorted filter].
  - now rewrite Hp.
  - destruct (key x <=? key y) eqn:E.
    + cbn [filter]. rewrite Hp. destruct (p y); cbn [insert_sorted].
      * now rewrite E.
      * clear IH. rewrite Forall_forall in Hall. apply Z.leb_le in E.
        induction l as [|z l IHl]; [reflexivity|].
        inversion Hs as [|? ? Hs' Hall']; subst.
        cbn [filter]. destruct (p z).
        -- cbn [insert_sorted].
           assert (Hz : (key x <=? key z) = true).
           { apply Z.leb_le. specialize (Hall z (or_introl eq_refl)).
             unfold key_le in Hall. lia. }
           now rewrite Hz.
        -- apply IHl; [assumption|]. intros w Hw. apply Hall. now right.
    + cbn [filter]. destruct (p y); cbn [insert_sorted]; rewrite ?E, IH; reflexivity.
Qed.

Lemma sorted_filter {A} (key : A -> Z) (p : A -> bool) (l : list A) :
  sorted key (filter p l) = filter p (sorted key l).
Proof.
  induction l as [|x l IH]; [reflexivity|].
  cbn [filter sorted fold_right]. fold (sorted key l).
  destruct (p x) eqn:Hp.
  - cbn [sorted fold_right]. fold (sorted key (filter p l)). rewrite IH.
    symmetry. apply insert_sorted_filter_in; [apply sorted_ordered | assumption].
  - rewrite insert_sorted_filter_out by assumption. exact IH.
Qed.

(** The listing after a file is removed is the listing without it. *)
Lemma listing_remove (fs : filesystem) (name : string) :
  listing (with_entries fs (remove name (entries fs)))
  = filter (fun it => negb (String.eqb name (item_path it))) (listing fs).
Proof.
  unfold listing. rewrite <- sorted_filter. f_equal.
  unfold scan_result. cbn [entries with_entries].
  assert (Hnames : map fst (remove name (entries fs))
                   = filter (fun m => negb (String.eqb name m)) (map fst (entries fs))).
  { unfold remove. induction (entries fs) as [|[m j] l IH]; [reflexivity|].
    cbn [filter map fst]. destruct (String.eqb name m); cbn [negb map fst];
      now rewrite IH. }
  rewrite Hnames. clear Hnames.
  induction (map fst (entries fs)) as [|m names IH]; [reflexivity|].
  cbn [filter flat_map]. rewrite filter_app, <- IH.
  destruct (String.eqb_spec name m) as [<-|Hne]; cbn [negb].
  - replace (filter _ (item_of fs name)) with (@nil item); [reflexivity|].
    unfold item_of. destruct (lookup name (entries fs)); [|reflexivity].
    cbn [filter item_path snd]. now rewrite String.eqb_refl.
  - cbn [flat_map]. f_equal. unfold item_of. cbn [entries with_entries].
    rewrite lookup_remove_other by congruence.
    destruct (lookup m (entries fs)); [|reflexivity].
    cbn [filter item_path snd].
    destruct (String.eqb_spec name m); [contradiction|]. reflexivity.
Qed.

Lemma listing_paths_NoDup (fs : filesystem) :
  directory_ok fs -> NoDup (map item_path (listing fs)).
Proof.
  intros Hok. unfold directory_ok in Hok. rewrite <- scan_result_paths in Hok.
  eapply Permutation_NoDup; [|exact Hok].
  apply Permutation_map. symmetry. apply sorted_perm.
Qed.

Lemma listing_tail_after_remove (fs : filesystem) (it : item) (rest : list item) :
  directory_ok fs -> listing fs = it :: rest ->
  listing (with_entries fs (remove (item_path it) (entries fs))) = rest.
Proof.
  intros Hok Hl. rewrite listing_remove, Hl. cbn [filter].
  rewrite String.eqb_refl. cbn [negb].
  pose proof (listing_paths_NoDup fs Hok) as Hnd. rewrite Hl in Hnd.
  cbn [map] in Hnd. inversion Hnd as [|? ? Hnot _]; subst.
  clear - Hnot. induction rest as [|x rest IH]; [reflexivity|].
  cbn [filter]. destruct (String.eqb_spec (item_path it) (item_path x)) as [E|_].
  - exfalso. apply Hnot. left. now symmetry.
  - cbn [negb]. f_equal. apply IH. intros H. apply Hnot. now right.
Qed.

Lemma resolves_remove (self : IODict) (fs : filesystem) (name : string) :
  resolves self fs -> resolves self (with_entries fs (remove name (entries fs))).
Proof.
  intros Hres m i. cbn [entries with_entries].
  destruct (String.eqb_spec m name) as [->|Hne].
  - now rewrite lookup_remove_same.
  - rewrite lookup_remove_other by assumption. apply Hres.
Qed.

Lemma directory_ok_remove (fs : filesystem) (name : string) :
  directory_ok fs -> directory_ok (with_entries fs (remove name (entries fs))).
Proof.
  unfold directory_ok, remove. cbn [entries with_entries].
  induction (entries fs) as [|[m j] l IH]; intros Hnd; [constructor|].
  inversion Hnd as [|? ? Hnot Hnd']; subst.
  cbn [filter fst]. destruct (String.eqb name m); cbn [negb map fst]; [auto|].
  constructor; [|auto]. intros Hin. apply Hnot.
  apply in_map_iff in Hin. destruct Hin as (e & He & Hf).
  apply filter_In in Hf. apply in_map_iff. exists e. tauto.
Qed.

Lemma popitems_closed_form (self : IODict) (n : nat) :
  forall fs,
    resolves self fs -> directory_ok fs -> List.length (entries fs) = n ->
    popitems self n fs
    = (Ok (map (item_value fs) (listing fs)), with_entries fs []).
Proof.
  induction n as [|n IH]; intros fs Hres Hok Hlen.
  - apply length_zero_iff_nil in Hlen.
    pose proof (proj1 (listing_nil fs) Hlen) as Hl. rewrite Hl. cbn.
    unfold ret. rewrite <- Hlen. now rewrite with_entries_same.
  - destruct (listing fs) as [|it rest] eqn:Hl.
    { apply listing_nil in Hl. rewrite Hl in Hlen. discriminate. }
    assert (Hin : In it (listing fs)) by (rewrite Hl; now left).
    apply listing_In in Hin. destruct Hin as (i & Hi & Heq).
    destruct (Hres _ _ Hi) as [Henc Hv].
    assert (Hk : item_key it = listed_key fs (item_path it) i)
      by (rewrite Heq at 1; reflexivity).
    cbn [popitems]. unfold bind at 1.
    rewrite (popitem_first self fs it rest i Hl Hi) by (rewrite ?Hk; assumption).
    set (fs1 := with_entries fs (remove (item_path it) (entries fs))).
    unfold bind.
    rewrite (IH fs1 (resolves_remove _ _ _ Hres) (directory_ok_remove _ _ Hok)).
    + subst fs1. rewrite (listing_tail_after_remove fs it rest Hok Hl).
      unfold ret. cbn [map with_entries]. f_equal. f_equal. f_equal.
      * unfold item_value. now rewrite Hi.
      * pose proof (listing_paths_NoDup fs Hok) as Hnd. rewrite Hl in Hnd.
        cbn [map] in Hnd. inversion Hnd as [|? ? Hnot _]; subst.
        apply map_ext_in. intros x Hx. unfold item_value.
        cbn [entries with_entries]. rewrite lookup_remove_other; [reflexivity|].
        intros E. apply Hnot. rewrite <- E. now apply in_map.
    + unfold fs1. cbn [entries with_entries].
      pose proof (remove_length _ _ _ Hok Hi). lia.
Qed.

(** X14: where the listing leads back to the records, calling [popitem()]
    as many times as there are records hands out the values in iteration
    order, the order of [values()], and empties the store; one more call
    raises [KeyError('popitem(): dictionary is empty')]. *)
Theorem popitem_drains_in_order (self : IODict) (fs : filesystem) :
  resolves self fs -> directory_ok fs ->
  exists vs,
    IODict.values self fs = (Ok vs, fs)
    /\ popitems self (List.length (entries fs)) fs = (Ok vs, with_entries fs [])
    /\ IODict.popitem self (with_entries fs [])
       = (Raise (KeyError (PStr "popitem(): dictionary is empty")),
          with_entries fs []).
Proof.
  intros Hres Hok. exists (map (item_value fs) (listing fs)).
  split; [now apply values_closed_form|]. split.
  - now apply popitems_closed_form.
  - now apply popitem_empty.
Qed.

Lemma directory_ok_fs_plain_ab : directory_ok fs_plain_ab.
Proof.
  unfold directory_ok. vm_compute.
  repeat constructor; cbn; intuition discriminate.
Qed.

Lemma popitem_drains_in_order_witness :
  resolves store_plain fs_plain_ab /\ directory_ok fs_plain_ab
  /\ IODict.values store_plain fs_plain_ab = (Ok [PInt 1; PInt 2], fs_plain_ab)
  /\ exists vs, IODict.values store_plain fs_plain_ab = (Ok vs, fs_plain_ab)
                /\ popitems store_plain 2 fs_plain_ab
                   = (Ok vs, with_entries fs_plain_ab []).
Proof.
  split; [exact resolves_fs_plain_ab|]. split; [exact directory_ok_fs_plain_ab|].
  split; [vm_compute; reflexivity|].
  destruct (popitem_drains_in_order store_plain fs_plain_ab
              resolves_fs_plain_ab directory_ok_fs_plain_ab) as (vs & Hv & Hp & _).
  exists vs. split; assumption.
Defined.

(** ** [update] and [fromkeys] *)


Lemma setitem_payload (self : IODict) (key value : pyobj) (fs : filesystem)
    (name : string) :
  valid_name (_encoder self key) = true ->
  option_map payload
    (lookup name (entries (after (IODict.__setitem__ self key value) fs)))
  = if String.eqb (_encoder self key) name then Some value
    else option_map payload (lookup name (entries fs)).
Proof.
  intros Hv. rewrite setitem_after by assumption. cbn [entries with_entries].
  destruct (String.eqb_spec (_encoder self key) name) as [<-|Hne].
  - rewrite lookup_put_same. unfold set_inode.
    destruct (xattr_supported fs); reflexivity.
  - rewrite lookup_put_other by congruence. reflexivity.
Qed.













(** ** The generator *)

(** X18: [next(self.__iter__(index))] on an empty store raises
    [StopIteration] whatever the index; on a store with records index 0
    yields the key of the earliest record, index -1 the key of the latest
    one, and an index beyond the number of records, in either direction,
    raises [IndexError]. *)
Theorem next_with_index (self : IODict) (fs : filesystem) :
  (entries fs = [] ->
   forall index,
     outcome (IODict.next self (IODict.__iter__ self index)) fs = Raise StopIteration)
  /\ (forall it rest, listing fs = it :: rest ->
        outcome (IODict.next self (IODict.__iter__ self (Some 0))) fs
        = Ok (PStr (item_key it), IODict.Exhausted))
  /\ (forall front it, listing fs = front ++ [it] ->
        outcome (IODict.next self (IODict.__iter__ self (Some (-1)))) fs
        = Ok (PStr (item_key it), IODict.Exhausted))
  /\ (forall z, entries fs <> [] ->
        z < - Z.of_nat (List.length (entries fs))
        \/ Z.of_nat (List.length (entries fs)) <= z ->
        outcome (IODict.next self (IODict.__iter__ self (Some z))) fs
        = Raise IndexError).
Proof.
  unfold outcome, IODict.next, IODict.__iter__, bind.
  rewrite iter_items_closed_form. split; [|split; [|split]].
  - intros H index. apply listing_nil in H. now rewrite H.
  - intros it rest Hl. rewrite Hl. cbn.
    assert (Hin : In it (listing fs)) by (rewrite Hl; now left).
    apply listing_present in Hin.
    destruct (lookup (item_path it) (entries fs)); [reflexivity|congruence].
  - intros front it Hl.
    assert (Hin : In it (listing fs)) by (rewrite Hl; apply in_elt).
    apply listing_present in Hin. rewrite Hl.
    destruct (front ++ [it]) as [|x l] eqn:E; [now destruct front|].
    rewrite <- E. unfold py_index. rewrite length_app. cbn [List.length].
    replace (-1 <? 0) with true by reflexivity.
    replace ((0 <=? -1 + Z.of_nat (List.length front + 1))
             && (-1 + Z.of_nat (List.length front + 1)
                 <? Z.of_nat (List.length front + 1))) with true
      by (symmetry; apply andb_true_intro; split;
          [apply Z.leb_le | apply Z.ltb_lt]; lia).
    replace (Z.to_nat (-1 + Z.of_nat (List.length front + 1)))
      with (List.length front) by lia.
    rewrite nth_error_app2, Nat.sub_diag by lia. cbn.
    destruct (lookup (item_path it) (entries fs)); [reflexivity|congruence].
  - intros z Hne Hz. rewrite <- listing_length in Hz.
    destruct (listing fs) as [|x l] eqn:E;
      [apply listing_nil in E; contradiction|].
    rewrite <- E in *. unfold py_index.
    set (n := Z.of_nat (List.length (listing fs))) in *.
    replace ((0 <=? (if z <? 0 then z + n else z))
             && ((if z <? 0 then z + n else z) <? n)) with false; [reflexivity|].
    symmetry. destruct (Z.ltb_spec z 0).
    + apply andb_false_intro1. apply Z.leb_gt.
      destruct Hz; [lia|]. assert (0 <= n) by (subst n; lia). lia.
    + apply andb_false_intro2. apply Z.ltb_ge.
      destruct Hz; [|lia]. assert (0 <= n) by (subst n; lia). lia.
Qed.

Lemma next_with_index_witness :
  entries fs_xattr = []
  /\ outcome (IODict.next store_xattr (IODict.__iter__ store_xattr (Some 3))) fs_xattr
     = Raise StopIteration
  /\ entries fs_xattr_ab <> []
  /\ outcome (IODict.next store_xattr (IODict.__iter__ store_xattr (Some (-1))))
       fs_xattr_ab = Ok (PStr "b", IODict.Exhausted)
  /\ outcome (IODict.next store_xattr (IODict.__iter__ store_xattr (Some 2)))
       fs_xattr_ab = Raise IndexError.
Proof.
  split; [reflexivity|]. split.
  - apply (proj1 (next_with_index store_xattr fs_xattr) eq_refl).
  - split; [vm_compute; discriminate|]. split.
    + vm_compute. reflexivity.
    + apply (proj2 (proj2 (proj2 (next_with_index store_xattr fs_xattr_ab))) 2).
      * vm_compute. discriminate.
      * right. vm_compute. discriminate.
Defined.

Lemma for_items_collect (items : list item) (acc : list pyobj) (fs : filesystem) :
  IODict.for_items items (fun acc item => ret (acc ++ [item])) acc fs
  = (Ok (acc ++ map (fun it => PStr (item_key it)) (filter (still_there fs) items)),
     fs).
Proof.
  revert acc. induction items as [|it items IH]; intros acc.
  - cbn. unfold ret. now rewrite app_nil_r.
  - cbn [IODict.for_items filter]. unfold bind at 1, os_path_exists at 1.
    unfold still_there at 1.
    destruct (lookup (item_path it) (entries fs)); cbn [negb]; [|apply IH].
    unfold bind, ret. rewrite IH. cbn [map]. now rewrite <- app_assoc.
Qed.

(** X19: a loop over the generator visits the items of its one scan and
    yields only those whose file is still there: a record deleted after
    the scan is passed over, not yielded and not an error. *)
Theorem iteration_passes_over_deleted (fs : filesystem) (name : string) :
  let fs' := with_entries fs (remove name (entries fs)) in
  IODict.for_items (listing fs) (fun acc item => ret (acc ++ [item])) [] fs'
  = (Ok (map (fun it => PStr (item_key it))
           (filter (fun it => negb (String.eqb name (item_path it))) (listing fs))),
     fs')
  /\ (forall self, IODict.keys self fs'
        = (Ok (map (fun it => PStr (item_key it))
                 (filter (fun it => negb (String.eqb name (item_path it)))
                    (listing fs))), fs')).
Proof.
  intros fs'. split.
  - rewrite for_items_collect. cbn [app]. do 3 f_equal.
    apply filter_ext_in. intros it Hin. apply listing_present in Hin.
    unfold still_there, fs'. cbn [entries with_entries].
    destruct (String.eqb_spec name (item_path it)) as [->|Hne]; cbn [negb].
    + now rewrite lookup_remove_same.
    + rewrite lookup_remove_other by congruence.
      destruct (lookup (item_path it) (entries fs)); [reflexivity|congruence].
  - intros self. rewrite keys_closed_form. unfold fs'. now rewrite listing_remove.
Qed.

Example iteration_passes_over_deleted_run :
  let name := _encoder store_xattr (PStr "a") in
  let fs' := with_entries fs_xattr_ab (remove name (entries fs_xattr_ab)) in
  IODict.__delitem__ store_xattr (PStr "a") fs_xattr_ab = (Ok tt, fs')
  /\ IODict.for_items (listing fs_xattr_ab)
       (fun acc item => ret (acc ++ [item])) [] fs'
     = (Ok [PStr "b"], fs').
Proof. cbv zeta. split; vm_compute; reflexivity. Qed.

(** ** Store objects and scopes *)



(** X21: a [with] block whose body returns normally hands out the value of
    the body, and its records are gone afterwards when every record the
    body leaves is listed under a key that leads back to it. *)
Theorem with_block_returns_and_clears {A : Type} (self : IODict)
    (body : IODict -> M A) (a : A) (fs fs1 : filesystem) :
  body self fs = (Ok a, fs1) ->
  resolves self fs1 ->
  IODict.with_statement self body fs = (Ok (Some a), with_entries fs1 []).
Proof.
  intros Hbody Hres.
  unfold IODict.with_statement, IODict.__enter__, try_except_else, bind, ret.
  rewrite Hbody, exit_closed_form. unfold after.
  now rewrite clear_closed_form.
Qed.

Lemma with_block_returns_and_clears_witness :
  let body := fun d => IODict.__getitem__ d (PStr "b") in
  body store_plain fs_plain_ab = (Ok (PInt 2), fs_plain_ab)
  /\ resolves store_plain fs_plain_ab
  /\ IODict.with_statement store_plain body fs_plain_ab
     = (Ok (Some (PInt 2)), with_entries fs_plain_ab []).
Proof.
  cbv zeta. split; [reflexivity|]. split; [exact resolves_fs_plain_ab|].
  apply (with_block_returns_and_clears store_plain
           (fun d => IODict.__getitem__ d (PStr "b")) (PInt 2)
           fs_plain_ab fs_plain_ab eq_refl resolves_fs_plain_ab).
Defined.

(** ** Keys and file names *)

(** X22: two keys with the same file name are one key to the store: what
    is written under one is read, and deleted, under the other.  On a
    store without attributes these are the keys with the same [str()]. *)
Theorem keys_with_one_name_share_a_record (self : IODict) (k1 k2 value : pyobj)
    (fs : filesystem) :
  _encoder self k1 = _encoder self k2 ->
  valid_name (_encoder self k1) = true ->
  let fs' := after (IODict.__setitem__ self k1 value) fs in
  IODict.__getitem__ self k2 fs' = (Ok value, fs')
  /\ outcome (IODict.__delitem__ self k2) fs' = Ok tt
  /\ IODict.__getitem__ self k1 (after (IODict.__delitem__ self k2) fs')
     = (Raise (KeyError k1), after (IODict.__delitem__ self k2) fs').
Proof.
  intros He Hv fs'.
  pose proof (setitem_payload self k1 value fs (_encoder self k1) Hv) as Hp.
  rewrite String.eqb_refl in Hp. fold fs' in Hp.
  destruct (lookup (_encoder self k1) (entries fs')) as [i|] eqn:Hi;
    [|discriminate].
  injection Hp as Hp.
  assert (Hv2 : valid_name (_encoder self k2) = true) by (now rewrite <- He).
  assert (Hi2 : lookup (_encoder self k2) (entries fs') = Some i)
    by (now rewrite <- He).
  split; [|split].
  - rewrite (getitem_present self k2 fs' Hv2 i Hi2). now rewrite Hp.
  - unfold outcome. now rewrite (delitem_present self k2 fs' Hv2 i Hi2).
  - unfold after at 1 2. rewrite (delitem_present self k2 fs' Hv2 i Hi2).
    cbn [snd]. apply getitem_absent; [assumption|].
    cbn [entries with_entries]. rewrite <- He. apply lookup_remove_same.
Qed.

Lemma keys_with_one_name_share_a_record_witness :
  _encoder store_plain (PStr "1") = _encoder store_plain (PInt 1)
  /\ valid_name (_encoder store_plain (PStr "1")) = true
  /\ let fs' := after (IODict.__setitem__ store_plain (PStr "1") (PStr "x")) fs_plain_ab in
     IODict.__getitem__ store_plain (PInt 1) fs' = (Ok (PStr "x"), fs').
Proof.
  split; [reflexivity|]. split; [reflexivity|]. cbv zeta.
  apply (keys_with_one_name_share_a_record store_plain (PStr "1") (PInt 1) (PStr "x")
           fs_plain_ab eq_refl eq_refl).
Defined.

(** X23: without extended attributes the creation time of a record is the
    [st_birthtime] of its file where [os.stat] has one, which writing the
    key again keeps, and otherwise [st_ctime], which is the time of the
    latest write. *)
Theorem creation_time_without_attributes (self : IODict) (key value : pyobj)
    (fs : filesystem) :
  xattr_supported fs = false ->
  valid_name (_encoder self key) = true ->
  let fs' := after (IODict.__setitem__ self key value) fs in
  _get_create_time (_encoder self key) fs'
  = (Ok (if stat_has_birthtime fs
         then match lookup (_encoder self key) (entries fs) with
              | Some i => created i
              | None => clock fs
              end
         else clock fs), fs').
Proof.
  intros Hx Hv fs'.
  assert (Hl : lookup (_encoder self key) (entries fs')
               = Some (set_inode fs key value
                         (lookup (_encoder self key) (entries fs)))).
  { subst fs'. rewrite setitem_after by assumption.
    cbn [entries with_entries]. apply lookup_put_same. }
  rewrite (get_create_time_closed_form _ _ _ Hl). do 2 f_equal.
  assert (Hf : xattr_supported fs' = false /\ stat_has_birthtime fs' = stat_has_birthtime fs)
    by (subst fs'; rewrite setitem_after by assumption; now split).
  destruct Hf as [Hx' Hs']. unfold listed_time, set_inode. rewrite Hx', Hs', Hx.
  destruct (stat_has_birthtime fs); [|reflexivity].
  destruct (lookup (_encoder self key) (entries fs)); reflexivity.
Qed.

Lemma creation_time_without_attributes_witness :
  xattr_supported fs_plain_ab = false
  /\ valid_name (_encoder store_plain (PStr "a")) = true
  /\ (exists i, lookup "a" (entries fs_plain_ab) = Some i /\ ctime i = 1000)
  /\ let fs' := after (IODict.__setitem__ store_plain (PStr "a") (PInt 3))
                  (tick 5 fs_plain_ab) in
     _get_create_time "a" fs' = (Ok 1006, fs').
Proof.
  split; [reflexivity|]. split; [reflexivity|].
  split; [eexists; split; vm_compute; reflexivity|]. cbv zeta.
  apply (creation_time_without_attributes store_plain (PStr "a") (PInt 3)
           (tick 5 fs_plain_ab) eq_refl eq_refl).
Defined.

(** X24: where the listing leads back to the records and no file name
    occurs twice, a full iteration yields no key twice. *)
Theorem keys_are_distinct (self : IODict) (fs : filesystem) :
  resolves self fs -> directory_ok fs ->
  exists ks, IODict.keys self fs = (Ok ks, fs) /\ NoDup ks.
Proof.
  intros Hres Hok. exists (map (fun it => PStr (item_key it)) (listing fs)).
  split; [apply keys_closed_form|].
  apply (NoDup_map_inv (_encoder self)). rewrite map_map.
  erewrite map_ext_in; [apply (listing_paths_NoDup fs Hok)|].
  intros it Hin. cbv beta. apply listing_In in Hin. destruct Hin as (i & Hi & Heq).
  destruct (Hres _ _ Hi) as [Henc _]. rewrite Heq at 1. exact Henc.
Qed.

Lemma keys_are_distinct_witness :
  resolves store_plain fs_plain_ab /\ directory_ok fs_plain_ab
  /\ exists ks, IODict.keys store_plain fs_plain_ab = (Ok ks, fs_plain_ab) /\ NoDup ks.
Proof.
  split; [exact resolves_fs_plain_ab|]. split; [exact directory_ok_fs_plain_ab|].
  exact (keys_are_distinct store_plain fs_plain_ab
           resolves_fs_plain_ab directory_ok_fs_plain_ab).
Defined.

(** ** What the store keeps *)




(** ** Records the listing does not lead back to *)

Lemma for_items_app {A} (l1 l2 : list item) (body : A -> pyobj -> M A) (acc : A)
    (fs : filesystem) :
  IODict.for_items (l1 ++ l2) body acc fs
  = bind (IODict.for_items l1 body acc) (IODict.for_items l2 body) fs.
Proof.
  revert acc fs. induction l1 as [|it l1 IH]; intros acc fs; [reflexivity|].
  cbn [app IODict.for_items]. unfold bind, os_path_exists.
  destruct (lookup (item_path it) (entries fs)); cbn [negb].
  - destruct (body acc (PStr (item_key it)) fs) as [[a|e] fs1]; [|reflexivity].
    rewrite IH. reflexivity.
  - rewrite IH. reflexivity.
Qed.

Lemma lookup_remove_all (names : list string) (name : string)
    (l : list (string * inode)) :
  lookup name (fold_left (fun l' n => remove n l') names l)
  = if existsb (String.eqb name) names then None else lookup name l.
Proof.
  revert l. induction names as [|n names IH]; intros l; [reflexivity|].
  cbn [fold_left existsb]. rewrite IH.
  destruct (existsb (String.eqb name) names); [now rewrite orb_true_r|].
  rewrite orb_false_r. destruct (String.eqb_spec name n) as [->|Hne].
  - apply lookup_remove_same.
  - now apply lookup_remove_other.
Qed.

(** X26: [clear] deletes the records in iteration order and stops at the
    first one whose listed key has no record: it raises [KeyError] with
    that key, the records before it are gone, that record and all later
    ones are still there. *)
Theorem clear_stops_at_unreadable_record (self : IODict) (fs : filesystem)
    (front back : list item) (it : item) :
  directory_ok fs ->
  listing fs = front ++ it :: back ->
  Forall (fun x => _encoder self (PStr (item_key x)) = item_path x
                   /\ valid_name (item_path x) = true) front ->
  valid_name (_encoder self (PStr (item_key it))) = true ->
  lookup (_encoder self (PStr (item_key it))) (entries fs) = None ->
  let fs' := after (IODict.clear self) fs in
  IODict.clear self fs = (Raise (KeyError (PStr (item_key it))), fs')
  /\ (forall x, In x front -> lookup (item_path x) (entries fs') = None)
  /\ (forall x, In x (it :: back) ->
        lookup (item_path x) (entries fs') = lookup (item_path x) (entries fs)
        /\ lookup (item_path x) (entries fs) <> None).
Proof.
  intros Hok Hl Hfront Hv Hnone fs'.
  set (fs1 := with_entries fs
                (fold_left (fun l n => remove n l) (map item_path front) (entries fs))).
  pose proof (listing_paths_NoDup fs Hok) as Hnd. rewrite Hl, map_app in Hnd.
  assert (Hsep : forall x, In x (it :: back) ->
            existsb (String.eqb (item_path x)) (map item_path front) = false).
  { intros x Hx. apply not_true_is_false. intros Hex.
    apply existsb_exists in Hex. destruct Hex as (n & Hn & E).
    apply String.eqb_eq in E. subst n.
    assert (Hx' : In (item_path x) (map item_path (it :: back)))
      by (now apply in_map).
    clear - Hnd Hn Hx'.
    induction (map item_path front) as [|m ms IH]; [contradiction|].
    cbn [app] in Hnd. inversion Hnd as [|? ? Hnot Hnd']; subst.
    destruct Hn as [->|Hn]; [|now apply IH].
    apply Hnot. apply in_or_app. now right. }
  assert (Hclear : IODict.clear self fs = (Raise (KeyError (PStr (item_key it))), fs1)).
  { unfold IODict.clear, IODict.for_iter, bind at 1.
    rewrite iter_items_closed_form, Hl, for_items_app. unfold bind at 1.
    rewrite (clear_items self front fs Hfront). fold fs1.
    cbn [IODict.for_items]. unfold bind at 1, os_path_exists at 1.
    assert (Hit : lookup (item_path it) (entries fs1)
                  = lookup (item_path it) (entries fs)).
    { unfold fs1. cbn [entries with_entries]. rewrite lookup_remove_all.
      now rewrite (Hsep it (or_introl eq_refl)). }
    assert (Hp : lookup (item_path it) (entries fs) <> None).
    { apply listing_present. rewrite Hl. apply in_elt. }
    rewrite Hit. destruct (lookup (item_path it) (entries fs)); [|congruence].
    cbn [negb]. unfold bind.
    rewrite (delitem_absent self (PStr (item_key it)) fs1 Hv); [reflexivity|].
    unfold fs1. cbn [entries with_entries]. rewrite lookup_remove_all, Hnone.
    now destruct (existsb _ _). }
  assert (Ha : fs' = fs1) by (subst fs'; unfold after; now rewrite Hclear).
  rewrite Ha. split; [exact Hclear|]. split.
  - intros x Hx. unfold fs1. cbn [entries with_entries]. rewrite lookup_remove_all.
    replace (existsb _ _) with true; [reflexivity|].
    symmetry. apply existsb_exists. exists (item_path x).
    split; [now apply in_map | apply String.eqb_refl].
  - intros x Hx. split.
    + unfold fs1. cbn [entries with_entries]. rewrite lookup_remove_all.
      now rewrite (Hsep x Hx).
    + apply listing_present. rewrite Hl. apply in_or_app. now right.
Qed.

Lemma clear_stops_at_unreadable_record_witness :
  let fs := after (IODict.__setitem__ store_xattr (PStr "z") (PInt 9))
              (tick 1 (after (IODict.__setitem__ store_xattr (PStr "") (PInt 0))
                         (tick 1 fs_xattr_ab))) in
  directory_ok fs
  /\ outcome (IODict.keys store_xattr) fs
     = Ok [PStr "a"; PStr "b";
           PStr "6b4e03423667dbb73b6e15454f0eb1abd4597f9a1b078e3f5b5a6bc7";
           PStr "z"]
  /\ IODict.clear store_xattr fs
     = (Raise (KeyError
                 (PStr "6b4e03423667dbb73b6e15454f0eb1abd4597f9a1b078e3f5b5a6bc7")),
        after (IODict.clear store_xattr) fs)
  /\ IODict.__len__ store_xattr (after (IODict.clear store_xattr) fs)
     = (Ok 2, after (IODict.clear store_xattr) fs).
Proof.
  cbv zeta.
  set (fs := after (IODict.__setitem__ store_xattr (PStr "z") (PInt 9))
               (tick 1 (after (IODict.__setitem__ store_xattr (PStr "") (PInt 0))
                          (tick 1 fs_xattr_ab)))).
  assert (Hok : directory_ok fs).
  { unfold directory_ok. vm_compute. repeat constructor; cbn; intuition discriminate. }
  split; [exact Hok|]. split; [vm_compute; reflexivity|]. split.
  - refine (proj1 (clear_stops_at_unreadable_record store_xattr fs
                     [("a", 1000, _encoder store_xattr (PStr "a"));
                      ("b", 1001, _encoder store_xattr (PStr "b"))]
                     [("z", 1003, _encoder store_xattr (PStr "z"))]
                     ("6b4e03423667dbb73b6e15454f0eb1abd4597f9a1b078e3f5b5a6bc7",
                      1002, _encoder store_xattr (PStr ""))
                     Hok _ _ _ _)).
    + vm_compute. reflexivity.
    + repeat constructor; vm_compute; reflexivity.
    + apply sha3_name_valid.
    + vm_compute. reflexivity.
  - vm_compute. reflexivity.
Defined.

(** X27: [popitem] only ever tries the earliest record: when the key that
    record is listed under has no record, it raises [KeyError] with that
    key and removes nothing, whatever else the store holds. *)
Theorem popitem_stuck_on_unreadable_record (self : IODict) (fs : filesystem)
    (it : item) (rest : list item) :
  listing fs = it :: rest ->
  valid_name (_encoder self (PStr (item_key it))) = true ->
  lookup (_encoder self (PStr (item_key it))) (entries fs) = None ->
  IODict.popitem self fs = (Raise (KeyError (PStr (item_key it))), fs).
Proof.
  intros Hl Hv Hnone.
  assert (Hp : lookup (item_path it) (entries fs) <> None)
    by (apply listing_present; rewrite Hl; now left).
  unfold IODict.popitem, IODict.next, IODict.__iter__, try_except, bind.
  rewrite iter_items_closed_form, Hl. cbn.
  destruct (lookup (item_path it) (entries fs)); [|congruence]. cbn.
  rewrite (pop_absent self (PStr (item_key it)) fs Hv PNone Hnone). reflexivity.
Qed.

Lemma popitem_stuck_on_unreadable_record_witness :
  let fs := after (IODict.__setitem__ store_xattr (PStr "z") (PInt 9))
              (tick 1 fs_xattr_empty_key) in
  IODict.__len__ store_xattr fs = (Ok 2, fs)
  /\ IODict.popitem store_xattr fs
     = (Raise (KeyError
                 (PStr "6b4e03423667dbb73b6e15454f0eb1abd4597f9a1b078e3f5b5a6bc7")),
        fs).
Proof.
  cbv zeta. split; [vm_compute; reflexivity|].
  refine (popitem_stuck_on_unreadable_record store_xattr _
            ("6b4e03423667dbb73b6e15454f0eb1abd4597f9a1b078e3f5b5a6bc7",
             1000, _encoder store_xattr (PStr ""))
            [("z", 1001, _encoder store_xattr (PStr "z"))] _ _ _).
  - vm_compute. reflexivity.
  - apply sha3_name_valid.
  - vm_compute. reflexivity.
Defined.
